(** * coldforge: campaign engine and warmup scheduler

  A shallow embedding of [execution/send_campaign.py] and
  [execution/warmup_account.py], followed by the properties of the
  specification that were checked against it.

  Conventions of the embedding:
  - a Python [str] is a [string]; one [ascii] stands for one code point
    below 256;
  - a Python [int] is a [Z]; a list index or length is a [nat];
  - code that may raise returns a [result];
  - [datetime.now()] is an explicit argument of every operation that reads
    the clock;
  - the files under the two output directories are finite maps from file
    name to the persisted document;
  - a lead source is, by path, the rows the csv reader yields for it or the
    exception that reading it raises. *)

From Stdlib Require Import ZArith QArith Strings.String Strings.Ascii.
From Stdlib Require Import Numbers.DecimalString Lists.List.
From stdpp Require Import base gmap strings list fin_maps.

Local Open Scope string_scope.
Local Open Scope list_scope.

(** ** Python primitives used by the two scripts *)

Module Py.

(** Exceptions the modelled code can raise. The last three are raised by
    the library on a source that exists: [open] on a directory, the text
    decoder on bytes that are no text, [csv.reader] on a field beyond its
    size limit. *)
Inductive exn : Type :=
| TypeError
| FileNotFoundError
| IndexError
| IsADirectoryError
| UnicodeDecodeError
| CsvError.

Inductive result (A : Type) : Type :=
| Ok (a : A)
| Raise (e : exn).
Arguments Ok {A} a.
Arguments Raise {A} e.

#[global] Instance result_ret : MRet result := fun A a => Ok a.
#[global] Instance result_bind : MBind result := fun A B f m =>
  match m with
  | Ok a => f a
  | Raise e => Raise e
  end.

(** The values a CSV row dictionary can hold: a cell, the [restval]
    ([None]) of a short row, or the list of surplus cells of a long row. *)
Inductive pyval : Type :=
| PStr (s : string)
| PNone
| PList (l : list string).

(** A dictionary in insertion order. The keys of a [csv.DictReader] row are
    column names, or [None] (the [restkey]) for surplus cells. *)
Definition pykey : Type := option string.
Definition dict : Type := list (pykey * pyval).

Definition pykey_eqb (a b : pykey) : bool :=
  match a, b with
  | Some x, Some y => String.eqb x y
  | None, None => true
  | _, _ => false
  end.

(** [d[k] = v]: an existing key keeps its position. *)
Fixpoint dict_set (d : dict) (k : pykey) (v : pyval) : dict :=
  match d with
  | [] => [(k, v)]
  | (k', v') :: d' =>
      if pykey_eqb k' k then (k', v) :: d' else (k', v') :: dict_set d' k v
  end.

(** [d.get(k, default)]. *)
Fixpoint dict_get (d : dict) (k : pykey) (default : pyval) : pyval :=
  match d with
  | [] => default
  | (k', v') :: d' => if pykey_eqb k' k then v' else dict_get d' k default
  end.

(** *** Strings *)

(** [sub in s]. *)
Fixpoint contains (sub s : string) : bool :=
  String.prefix sub s ||
  match s with
  | EmptyString => false
  | String _ s' => contains sub s'
  end.

(** The scan of [s.replace(old, new)] for a non-empty [old]: left to
    right, occurrences do not overlap. [skip] counts the characters of a
    matched occurrence that are still to be dropped. *)
Fixpoint replace_from (old new : string) (skip : nat) (s : string) : string :=
  match s with
  | EmptyString => EmptyString
  | String c s' =>
      match skip with
      | S k => replace_from old new k s'
      | O =>
          if String.prefix old s
          then new +:+ replace_from old new (String.length old - 1) s'
          else String c (replace_from old new 0 s')
      end
  end.

(** With an empty [old], Python inserts [new] before every character and
    at the end. *)
Fixpoint interleave (new s : string) : string :=
  match s with
  | EmptyString => new
  | String c s' => new +:+ String c (interleave new s')
  end.

Definition replace (s old new : string) : string :=
  match old with
  | EmptyString => interleave new s
  | String _ _ => replace_from old new 0 s
  end.

(** [s.replace(old, new)] where [new] is any value: a [TypeError] unless it
    is a [str]. *)
Definition replace_val (s old : string) (new : pyval) : result string :=
  match new with
  | PStr v => Ok (replace s old v)
  | _ => Raise TypeError
  end.

(** [str(n)] for a non-negative integer. *)
Definition str_of_nat (n : nat) : string :=
  NilEmpty.string_of_uint (Nat.to_uint n).

(** Left padding with zeros up to width [w], as [%m], [%d], ... do. *)
Fixpoint zeros (n : nat) : string :=
  match n with
  | O => EmptyString
  | S n' => String "0" (zeros n')
  end.

Definition pad0 (w n : nat) : string :=
  let s := str_of_nat n in zeros (w - String.length s) +:+ s.

(** *** [repr] of a string and of a list of strings *)

Definition hex_digit (n : nat) : ascii :=
  match String.get n "0123456789abcdef" with
  | Some c => c
  | None => "0"%char
  end.

Definition has_char (c : ascii) (s : string) : bool :=
  contains (String c EmptyString) s.

Definition printable (c : ascii) : bool :=
  let n := nat_of_ascii c in
  (32 <=? n)%nat && negb (n =? 127)%nat &&
  negb ((128 <=? n)%nat && (n <=? 160)%nat) && negb (n =? 173)%nat.

Definition bslash : ascii := ascii_of_nat 92.
Definition dquote : ascii := ascii_of_nat 34.
Definition squote : ascii := ascii_of_nat 39.

Definition escape (c : ascii) : string := String bslash (String c EmptyString).

Definition repr_char (quote c : ascii) : string :=
  if Ascii.eqb c quote || Ascii.eqb c bslash then escape c
  else if Ascii.eqb c (ascii_of_nat 9) then escape "t"
  else if Ascii.eqb c (ascii_of_nat 10) then escape "n"
  else if Ascii.eqb c (ascii_of_nat 13) then escape "r"
  else if printable c then String c EmptyString
  else
    let n := nat_of_ascii c in
    String bslash (String "x" (String (hex_digit (n / 16))
                                 (String (hex_digit (n mod 16)) EmptyString))).

Fixpoint repr_body (quote : ascii) (s : string) : string :=
  match s with
  | EmptyString => EmptyString
  | String c s' => repr_char quote c +:+ repr_body quote s'
  end.

Definition repr_str (s : string) : string :=
  let quote := if has_char squote s && negb (has_char dquote s)
               then dquote else squote in
  String quote (repr_body quote s) +:+ String quote EmptyString.

Fixpoint join (sep : string) (l : list string) : string :=
  match l with
  | [] => EmptyString
  | [x] => x
  | x :: l' => x +:+ sep +:+ join sep l'
  end.

Definition repr_list (l : list string) : string :=
  "[" +:+ join ", " (map repr_str l) +:+ "]".

(** [str(v)]. *)
Definition str (v : pyval) : string :=
  match v with
  | PStr s => s
  | PNone => "None"
  | PList l => repr_list l
  end.

(** [f"{k}"] for a dictionary key. *)
Definition format_key (k : pykey) : string :=
  match k with
  | Some s => s
  | None => "None"
  end.

(** *** The clock *)

(** A reading of [datetime.now()]. *)
Record datetime : Type := mkDatetime {
  dt_year : nat;
  dt_month : nat;
  dt_day : nat;
  dt_hour : nat;
  dt_minute : nat;
  dt_second : nat;
  dt_microsecond : nat
}.

(** [t.strftime('%Y%m%d_%H%M%S')]. *)
Definition strftime_id (t : datetime) : string :=
  pad0 4 (dt_year t) +:+ pad0 2 (dt_month t) +:+ pad0 2 (dt_day t) +:+ "_"
  +:+ pad0 2 (dt_hour t) +:+ pad0 2 (dt_minute t) +:+ pad0 2 (dt_second t).

End Py.

Export Py.

(** ** [execution/send_campaign.py] *)

Module SendCampaign.

Record EmailTemplate : Type := mkEmailTemplate {
  subject : string;
  body : string;
  delay_days : Z
}.

(** The dataclass does not check its annotations, and [_load_leads] can
    store [None] in a typed field (a row shorter than the header), so the
    three typed fields hold any [pyval]. [extra] defaults to [None]. *)
Record Lead : Type := mkLead {
  email : pyval;
  first_name : pyval;
  company_name : pyval;
  extra : option dict
}.

(** [started_at] is an attribute that [__init__] does not create; [None]
    stands for the attribute being absent, as [getattr(self, "started_at",
    None)] reads it. *)
Record Campaign : Type := mkCampaign {
  id : string;
  name : string;
  leads_csv : option string;
  mailboxes : list string;
  daily_limit : Z;
  sequence : list EmailTemplate;
  status : string;
  created_at : datetime;
  leads : list Lead;
  started_at : option datetime
}.

(** The document [_save] writes, key by key. [created_at] and [started_at]
    are written as text; the embedding keeps the clock reading they
    print. *)
Record State : Type := mkState {
  st_id : string;
  st_name : string;
  st_status : string;
  st_created_at : datetime;
  st_started_at : option datetime;
  st_leads_count : nat;
  st_mailboxes : list string;
  st_daily_limit : Z;
  st_sequence : list EmailTemplate
}.

(** What [open(csv_path)] and the iteration of [csv.DictReader] find when
    the path resolves: the rows [csv.reader] yields for the whole text, or
    the exception that [open], the decoder or the tokenizer raises on the
    way. *)
Inductive source : Type :=
| Rows (rows : list (list string))
| Unreadable (e : exn).

(** The files of [OUTPUT_DIR], by file name, and the sources a [csv_path]
    can name. *)
Abbreviation campaign_files := (gmap string State).
Abbreviation csv_files := (gmap string source).

(** What [start] returns: [{"status": "error", "errors": errors}] or
    [{"status": "started", "campaign_id": self.id}]. *)
Inductive start_result : Type :=
| StartError (errors : list string)
| Started (campaign_id : string).

Definition set_leads (c : Campaign) (l : list Lead) : Campaign :=
  mkCampaign (id c) (name c) (leads_csv c) (mailboxes c) (daily_limit c)
             (sequence c) (status c) (created_at c) l (started_at c).

Definition set_sequence (c : Campaign) (s : list EmailTemplate) : Campaign :=
  mkCampaign (id c) (name c) (leads_csv c) (mailboxes c) (daily_limit c)
             s (status c) (created_at c) (leads c) (started_at c).

Definition set_status (c : Campaign) (s : string) : Campaign :=
  mkCampaign (id c) (name c) (leads_csv c) (mailboxes c) (daily_limit c)
             (sequence c) s (created_at c) (leads c) (started_at c).

Definition set_started_at (c : Campaign) (t : datetime) : Campaign :=
  mkCampaign (id c) (name c) (leads_csv c) (mailboxes c) (daily_limit c)
             (sequence c) (status c) (created_at c) (leads c) (Some t).

(** *** [csv.DictReader] *)

(** [dict(zip(fieldnames, row))]. *)
Fixpoint zip_dict (d : dict) (fieldnames row : list string) : dict :=
  match fieldnames, row with
  | k :: ks, v :: vs => zip_dict (dict_set d (Some k) (PStr v)) ks vs
  | _, _ => d
  end.

(** One data row: surplus cells go under the key [None], missing cells are
    [None]. *)
Definition row_dict (fieldnames row : list string) : dict :=
  let d := zip_dict [] fieldnames row in
  let lf := length fieldnames in
  let lr := length row in
  if (lf <? lr)%nat then dict_set d None (PList (drop lf row))
  else if (lr <? lf)%nat then
    fold_left (fun d key => dict_set d (Some key) PNone) (drop lr fieldnames) d
  else d.

Definition is_blank (row : list string) : bool :=
  match row with
  | [] => true
  | _ :: _ => false
  end.

(** The first row read is the header, blank rows after it are skipped; a
    source without any row yields nothing. *)
Definition DictReader (rows : list (list string)) : list dict :=
  match rows with
  | [] => []
  | fieldnames :: rest =>
      map (row_dict fieldnames) (filter (fun r => negb (is_blank r)) rest)
  end.

(** *** [Campaign] *)

Definition lead_of_row (row : dict) : Lead :=
  mkLead (dict_get row (Some "email") (PStr EmptyString))
         (dict_get row (Some "first_name") (PStr EmptyString))
         (dict_get row (Some "company_name") (PStr EmptyString))
         (Some row).

(** The function has no [try]: whatever [open] or the reader raises leaves
    it, and with it the constructor, its only caller. *)
Definition _load_leads (files : csv_files) (self : Campaign) (csv_path : string)
  : result Campaign :=
  match files !! csv_path with
  | None => Raise FileNotFoundError
  | Some (Unreadable e) => Raise e
  | Some (Rows rows) =>
      Ok (fold_left (fun c row => set_leads c (leads c ++ [lead_of_row row]))
                    (DictReader rows) self)
  end.

(** [now_id] and [now_created] are the two clock readings of the
    constructor. *)
Definition __init__ (files : csv_files) (now_id now_created : datetime)
    (name : string) (leads_csv : option string)
    (mailboxes : option (list string)) (daily_limit : Z) : result Campaign :=
  let self :=
    mkCampaign ("campaign_" +:+ strftime_id now_id) name leads_csv
               (match mailboxes with Some (m :: ms) => m :: ms | _ => [] end)
               daily_limit [] "draft" now_created [] None in
  match leads_csv with
  | Some (String c p) => _load_leads files self (String c p)
  | _ => Ok self
  end.

Definition add_email (self : Campaign) (subject body : string) (delay_days : Z)
  : Campaign :=
  set_sequence self (sequence self ++ [mkEmailTemplate subject body delay_days]).

Definition personalize (template : string) (lead : Lead) : result string :=
  result ← replace_val template "{{first_name}}" (first_name lead);
  result ← replace_val result "{{company_name}}" (company_name lead);
  result ← replace_val result "{{email}}" (email lead);
  match extra lead with
  | Some (kv :: d) =>
      Ok (fold_left (fun result '(key, value) =>
                       replace result ("{{" +:+ format_key key +:+ "}}") (str value))
                    (kv :: d) result)
  | _ => Ok result
  end.

(** The inner loop of [validate] over [self.leads[:5]]: [true] when it
    leaves through [break]. *)
Fixpoint unresolved_in (body : string) (sample : list Lead) : result bool :=
  match sample with
  | [] => Ok false
  | lead :: sample' =>
      personalized ← personalize body lead;
      if contains "{{" personalized then Ok true
      else unresolved_in body sample'
  end.

(** The outer loop, [i] being the index of [enumerate]. *)
Fixpoint check_sequence (i : nat) (seq : list EmailTemplate) (sample : list Lead)
    (errors : list string) : result (list string) :=
  match seq with
  | [] => Ok errors
  | email :: seq' =>
      hit ← unresolved_in (body email) sample;
      check_sequence (S i) seq' sample
        (if hit : bool
         then errors ++ ["Email " +:+ str_of_nat (i + 1) +:+ " has unresolved variables"]
         else errors)
  end.

Definition validate (self : Campaign) : result (list string) :=
  let errors := [] in
  let errors := match leads self with
                | [] => errors ++ ["No leads loaded"]
                | _ => errors
                end in
  let errors := match sequence self with
                | [] => errors ++ ["No emails in sequence"]
                | _ => errors
                end in
  let errors := match mailboxes self with
                | [] => errors ++ ["No mailboxes configured"]
                | _ => errors
                end in
  check_sequence 0 (sequence self) (take 5 (leads self)) errors.

Definition state_of (self : Campaign) : State :=
  mkState (id self) (name self) (status self) (created_at self)
          (started_at self) (length (leads self)) (mailboxes self)
          (daily_limit self) (sequence self).

(** [f"{self.id}.json"], the name joined to [OUTPUT_DIR]. The files are
    keyed by this name as a text: an id written with path syntax ([./x], an
    absolute path) is joined by [pathlib] to the file another text names,
    which the key does not show. The ids the constructor generates hold
    letters, digits and underscores only. *)
Definition file_name (campaign_id : string) : string := campaign_id +:+ ".json".

Definition _save (self : Campaign) (files : campaign_files) : campaign_files :=
  <[file_name (id self) := state_of self]> files.

Definition start (now : datetime) (self : Campaign) (files : campaign_files)
  : result (Campaign * campaign_files * start_result) :=
  errors ← validate self;
  match errors with
  | _ :: _ => Ok (self, files, StartError errors)
  | [] =>
      let self := set_status self "active" in
      let self := set_started_at self now in
      let files := _save self files in
      Ok (self, files, Started (id self))
  end.

Definition pause (self : Campaign) (files : campaign_files)
  : Campaign * campaign_files :=
  let self := set_status self "paused" in
  (self, _save self files).

Definition resume (self : Campaign) (files : campaign_files)
  : Campaign * campaign_files :=
  let self := set_status self "active" in
  (self, _save self files).

(** [cls(name=state["name"])] reads the clock twice; no [leads_csv] is
    passed, so the constructor reads no file and loads no lead. Then five
    attributes are overwritten. *)
Definition load (now_id now_created : datetime) (files : campaign_files)
    (campaign_id : string) : result Campaign :=
  match files !! file_name campaign_id with
  | None => Raise FileNotFoundError
  | Some state =>
      campaign ← __init__ ∅ now_id now_created (st_name state) None None 50;
      Ok (mkCampaign (st_id state) (name campaign) (leads_csv campaign)
                     (st_mailboxes state) (st_daily_limit state)
                     (st_sequence state) (st_status state)
                     (created_at campaign) (leads campaign)
                     (started_at campaign))
  end.

End SendCampaign.

(** ** [execution/warmup_account.py] *)

Module WarmupAccount.

(** [reply_rate] is a float literal in the source; its decimal value is
    kept as a rational. *)
Record WarmupSchedule : Type := mkWarmupSchedule {
  day : Z;
  daily_limit : Z;
  reply_rate : Q
}.

Definition DEFAULT_SCHEDULE : list WarmupSchedule := [
  mkWarmupSchedule 1 5 1.0;
  mkWarmupSchedule 2 5 1.0;
  mkWarmupSchedule 3 5 1.0;
  mkWarmupSchedule 4 15 0.8;
  mkWarmupSchedule 5 15 0.8;
  mkWarmupSchedule 6 15 0.8;
  mkWarmupSchedule 7 15 0.8;
  mkWarmupSchedule 8 30 0.6;
  mkWarmupSchedule 14 40 0.4;
  mkWarmupSchedule 21 40 0.3
].

(** The loop over [reversed(DEFAULT_SCHEDULE)] returns at the first entry
    with [day >= schedule.day]; after the loop comes
    [DEFAULT_SCHEDULE[0]]. *)
Definition get_schedule_for_day (d : Z) : result WarmupSchedule :=
  match find (fun schedule => (d >=? day schedule)%Z) (rev DEFAULT_SCHEDULE) with
  | Some schedule => Ok schedule
  | None =>
      match DEFAULT_SCHEDULE with
      | schedule :: _ => Ok schedule
      | [] => Raise IndexError
      end
  end.

(** [config["metrics"]]. The two rates are floats in the source: the
    embedding keeps the exact quotient that Python rounds to a double. *)
Record Metrics : Type := mkMetrics {
  total_sent : Z;
  total_received : Z;
  inbox_rate : Q;
  spam_rate : Q
}.

(** The warmup document, as [start_warmup] writes it ([stopped_at] is
    added by [stop_warmup]). *)
Record WarmupConfig : Type := mkWarmupConfig {
  email : string;
  status : string;
  pool : string;
  cfg_daily_limit : Z;
  start_date : datetime;
  end_date : datetime;
  current_day : Z;
  schedule : list WarmupSchedule;
  metrics : Metrics;
  stopped_at : option datetime
}.

Abbreviation warmup_files := (gmap string WarmupConfig).

Definition set_metrics (config : WarmupConfig) (m : Metrics) : WarmupConfig :=
  mkWarmupConfig (email config) (status config) (pool config)
                 (cfg_daily_limit config) (start_date config) (end_date config)
                 (current_day config) (schedule config) m (stopped_at config).

Definition config_file (email : string) : string :=
  replace email "@" "_at_" +:+ "_warmup.json".

Definition update_metrics (files : warmup_files) (email : string)
    (sent received inbox spam : Z) : result (warmup_files * Metrics) :=
  match files !! config_file email with
  | None => Raise FileNotFoundError
  | Some config =>
      let m := metrics config in
      let m := mkMetrics (total_sent m + sent) (total_received m)
                         (inbox_rate m) (spam_rate m) in
      let m := mkMetrics (total_sent m) (total_received m + received)
                         (inbox_rate m) (spam_rate m) in
      let total := (inbox + spam)%Z in
      let m := if (total >? 0)%Z
               then mkMetrics (total_sent m) (total_received m)
                              (inject_Z inbox / inject_Z total)
                              (inject_Z spam / inject_Z total)
               else m in
      let config := set_metrics config m in
      Ok (<[config_file email := config]> files, metrics config)
  end.

End WarmupAccount.

Import SendCampaign.

(** ** Templates as text pieces and placeholders

  The vocabulary in which the properties of [personalize] are stated: a
  template read as a sequence of plain text pieces and [{{key}}]
  placeholders. *)

Module Template.

Inductive piece : Type :=
| Text (s : string)
| Placeholder (key : string).

Definition placeholder (key : string) : string := "{{" +:+ key +:+ "}}".

Definition piece_text (p : piece) : string :=
  match p with
  | Text s => s
  | Placeholder key => placeholder key
  end.

Fixpoint template_text (ps : list piece) : string :=
  match ps with
  | [] => EmptyString
  | p :: ps' => piece_text p +:+ template_text ps'
  end.

(** [s] has no occurrence of the character [c]. *)
Fixpoint no_char (c : ascii) (s : string) : bool :=
  match s with
  | EmptyString => true
  | String a s' => negb (Ascii.eqb a c) && no_char c s'
  end.

Definition brace_free (key : string) : bool :=
  no_char "{" key && no_char "}" key.

(** Plain text has no opening brace; a placeholder key has no brace. *)
Definition piece_ok (p : piece) : bool :=
  match p with
  | Text s => no_char "{" s
  | Placeholder key => brace_free key
  end.

(** Filling the placeholders of one key with a value. *)
Definition fill (key value : string) (p : piece) : piece :=
  match p with
  | Text s => Text s
  | Placeholder key' => if String.eqb key' key then Text value else p
  end.

Definition is_placeholder_of (key : string) (p : piece) : bool :=
  match p with
  | Text _ => false
  | Placeholder key' => String.eqb key' key
  end.

Definition keys_of (ps : list piece) : list string :=
  flat_map (fun p => match p with Text _ => [] | Placeholder k => [k] end) ps.

(** Membership in a list of names. *)
Definition mem (key : string) (names : list string) : bool :=
  existsb (String.eqb key) names.

Definition typed_names : list string := ["first_name"; "company_name"; "email"].

(** The items [personalize] iterates over after the typed fields. *)
Definition extra_items (lead : Lead) : dict :=
  match extra lead with
  | Some d => d
  | None => []
  end.

(** The keys a lead recognises: the typed fields and the keys of
    [extra]. *)
Definition recognized (lead : Lead) : list string :=
  typed_names ++ map (fun kv => format_key (fst kv)) (extra_items lead).

(** An item of [extra] that keeps a template readable as pieces: its key
    has no brace, and its value has no opening brace unless the key is one
    of [shadowed], the names whose placeholders are already filled. *)
Definition item_ok (shadowed : list string) (kv : pykey * pyval) : bool :=
  brace_free (format_key (fst kv)) &&
  (no_char "{" (str (snd kv)) || mem (format_key (fst kv)) shadowed).

(** Two [extra] dictionaries with the same keys in the same order, whose
    values differ at most under the typed-field names. *)
Definition agree_off_typed (d1 d2 : dict) : Prop :=
  Forall2 (fun kv1 kv2 =>
             fst kv1 = fst kv2 /\
             (snd kv1 = snd kv2 \/ mem (format_key (fst kv1)) typed_names = true))
          d1 d2.

Definition str_no_brace (v : pyval) : bool :=
  match v with
  | PStr s => no_char "{" s
  | _ => false
  end.

(** A lead whose typed fields are strings without opening brace and whose
    [extra] items are [item_ok]. *)
Definition clean_lead (shadowed : list string) (lead : Lead) : bool :=
  str_no_brace (first_name lead) && str_no_brace (company_name lead) &&
  str_no_brace (email lead) && forallb (item_ok shadowed) (extra_items lead).

(** Every placeholder of the template is one the lead recognises. *)
Definition all_recognized (lead : Lead) (ps : list piece) : bool :=
  forallb (fun k => mem k (recognized lead)) (keys_of ps).

(** The piecewise counterpart of the three typed replacements. *)
Definition fill_typed (fn cn em : string) (ps : list piece) : list piece :=
  map (fill "email" em) (map (fill "company_name" cn) (map (fill "first_name" fn) ps)).

(** The piecewise counterpart of the loop over [extra]. *)
Definition fill_items (d : dict) (ps : list piece) : list piece :=
  fold_left (fun ps kv => map (fill (format_key (fst kv)) (str (snd kv))) ps) d ps.

(** The loop over [extra] on text. *)
Definition replace_items (d : dict) (text : string) : string :=
  fold_left (fun result '(key, value) =>
               replace result ("{{" +:+ format_key key +:+ "}}") (str value))
            d text.

End Template.

Import Template.

(** ** Concrete campaigns, leads and templates used below *)

Module Samples.

Definition alice : Lead :=
  mkLead (PStr "alice@acme.io") (PStr "Alice") (PStr "Acme")
         (Some [(Some "email", PStr "alice@acme.io");
                (Some "first_name", PStr "Alice");
                (Some "company_name", PStr "Acme");
                (Some "role", PStr "CTO")]).

Definition greeting : list piece :=
  [Text "Hi "; Placeholder "first_name"; Text " of "; Placeholder "company_name";
   Text " ("; Placeholder "role"; Text ")"].

(** A lead whose company name is itself written with braces. *)
Definition braces : Lead :=
  mkLead (PStr "bo@curly.io") (PStr "Bo") (PStr "{{Curly}}") None.

Definition hello_company : list piece := [Text "Hello "; Placeholder "company_name"].

(** Two leads that differ only in the value [extra] gives for
    [first_name]; their company name spells the [first_name]
    placeholder. *)
Definition shadow (v : string) : Lead :=
  mkLead (PStr "al@x.io") (PStr "Al") (PStr "{{first_name}}")
         (Some [(Some "first_name", PStr v)]).

(** The same pair with a plain company name. *)
Definition plain (v : string) : Lead :=
  mkLead (PStr "al@x.io") (PStr "Al") (PStr "Xcorp")
         (Some [(Some "first_name", PStr v); (Some "city", PStr "Oslo")]).

Definition t0 : datetime := mkDatetime 2026 1 5 9 0 0 0.
Definition t1 : datetime := mkDatetime 2026 1 6 8 30 0 0.
Definition t2 : datetime := mkDatetime 2026 1 9 14 0 0 0.

(** A campaign ready to launch: one lead, one step, one mailbox. *)
Definition ready : Campaign :=
  mkCampaign "campaign_20260105_090000" "Q1 Outreach" None ["sales@acme.io"] 50
             [mkEmailTemplate "Quick question" "Hi {{first_name}}, a word?" 0]
             "draft" t0 [alice] None.

(** The same campaign without leads and with a placeholder no lead
    resolves. *)
Definition unready : Campaign :=
  mkCampaign "campaign_20260105_090000" "Q1 Outreach" None ["sales@acme.io"] 50
             [mkEmailTemplate "Quick question" "Hi {{nickname}}, a word?" 0]
             "draft" t0 [] None.

(** A paused campaign that was started at [t1], with three leads and a
    three-step sequence. *)
Definition running : Campaign :=
  mkCampaign "campaign_20260105_090000" "Q1 Outreach" (Some "leads.csv")
             ["sales@acme.io"; "hello@acme.io"] 35
             [mkEmailTemplate "Quick question" "Hi {{first_name}}, a word?" 0;
              mkEmailTemplate "Following up" "Any thoughts, {{first_name}}?" 3;
              mkEmailTemplate "Last note" "Closing the loop." 7]
             "paused" t0 [alice; alice; alice] (Some t1).

(** One lead, no mailbox, and a second step with a placeholder the lead
    does not resolve. *)
Definition sloppy : Campaign :=
  mkCampaign "campaign_20260105_090000" "Q1 Outreach" None [] 50
             [mkEmailTemplate "Quick question" "Hi {{first_name}}, a word?" 0;
              mkEmailTemplate "Following up" "Any thoughts, {{nickname}}?" 3]
             "draft" t0 [alice] None.

Definition warm : WarmupAccount.WarmupConfig :=
  WarmupAccount.mkWarmupConfig "john@acmeleads.com" "active" "general" 40 t0 t2 1
    WarmupAccount.DEFAULT_SCHEDULE (WarmupAccount.mkMetrics 12 9 0.9 0.1) None.

End Samples.

(** ** The validator in the words of the specification *)

Module ValidatorSpec.

Definition is_str (v : pyval) : bool :=
  match v with
  | PStr _ => true
  | _ => false
  end.

(** The typed fields of the lead hold strings, as the dataclass
    declares. *)
Definition lead_typed (lead : Lead) : bool :=
  is_str (first_name lead) && is_str (company_name lead) && is_str (email lead).

(** Rendering the body against the lead leaves a marker. *)
Definition leaves_marker (body : string) (lead : Lead) : bool :=
  match personalize body lead with
  | Ok out => contains "{{" out
  | Raise _ => false
  end.

Definition unresolved_message (i : nat) : string :=
  "Email " +:+ str_of_nat (i + 1) +:+ " has unresolved variables".

(** At most one error per step: emitted when some lead of the sample
    leaves a marker. *)
Definition step_errors (sample : list Lead) (i : nat) (step : EmailTemplate)
  : list string :=
  if existsb (leaves_marker (body step)) sample then [unresolved_message i] else [].

(** Modelled on the specification: the four checks, all evaluated, their
    errors concatenated in order. *)
Definition validate_spec (c : Campaign) : list string :=
  (if bool_decide (leads c = []) then ["No leads loaded"] else [])
  ++ (if bool_decide (sequence c = []) then ["No emails in sequence"] else [])
  ++ (if bool_decide (mailboxes c = []) then ["No mailboxes configured"] else [])
  ++ concat (imap (step_errors (take 5 (leads c))) (sequence c)).

End ValidatorSpec.

Import ValidatorSpec.

(** ** The command line of [send_campaign.py] *)

Module CampaignCli.

(** The sequence file: a JSON list of objects, each passed to [add_email]
    as keyword arguments; [delay_days] may be left out. *)
Record sequence_entry : Type := mkSequenceEntry {
  se_subject : string;
  se_body : string;
  se_delay_days : option Z
}.

(** The three kinds of file the [create] action reads. *)
Record inputs : Type := mkInputs {
  in_leads : csv_files;
  in_sequences : gmap string (list sequence_entry);
  in_mailboxes : gmap string (list string)
}.

(** [choices] of [--action]. *)
Inductive action : Type :=
| Create
| Start
| Pause
| Resume
| Metrics.

Record args : Type := mkArgs {
  arg_name : option string;
  arg_leads : option string;
  arg_sequence : option string;
  arg_mailboxes : option string;
  arg_campaign_id : option string;
  arg_action : action
}.

(** [get_metrics] returns the same figures for every campaign. *)
Record metrics : Type := mkMetrics {
  m_campaign_id : string;
  m_sent : Z;
  m_delivered : Z;
  m_opened : Z;
  m_clicked : Z;
  m_replied : Z;
  m_bounced : Z;
  m_open_rate : Q;
  m_click_rate : Q;
  m_reply_rate : Q;
  m_bounce_rate : Q
}.

Definition get_metrics (campaign_id : string) : metrics :=
  mkMetrics campaign_id 0 0 0 0 0 0 0.0 0.0 0.0 0.0.

(** How [main] ends: [parser.error] leaves through [SystemExit], an
    exception of the campaign code escapes, or the action completes. What
    the action prints is kept only for [start], whose result is printed. *)
Inductive outcome : Type :=
| ParserError (message : string)
| Raised (e : exn)
| Finished (files : campaign_files) (printed : option start_result).

(** A command-line value counts when it is given and not empty. *)
Definition given (a : option string) : option string :=
  match a with
  | Some (String c s) => Some (String c s)
  | _ => None
  end.

Definition add_entry (c : Campaign) (e : sequence_entry) : Campaign :=
  add_email c (se_subject e) (se_body e)
            (match se_delay_days e with Some d => d | None => 0%Z end).

Definition main_create (now_id now_created : datetime) (ins : inputs)
    (files : campaign_files) (a : args) : outcome :=
  match given (arg_name a) with
  | None => ParserError "--name required for create"
  | Some name =>
      match __init__ (in_leads ins) now_id now_created name (arg_leads a) None 50 with
      | Raise e => Raised e
      | Ok campaign =>
          match
            match given (arg_sequence a) with
            | None => Ok campaign
            | Some path =>
                match in_sequences ins !! path with
                | None => Raise FileNotFoundError
                | Some entries => Ok (fold_left add_entry entries campaign)
                end
            end
          with
          | Raise e => Raised e
          | Ok campaign =>
              match
                match given (arg_mailboxes a) with
                | None => Ok campaign
                | Some path =>
                    match in_mailboxes ins !! path with
                    | None => Raise FileNotFoundError
                    | Some boxes =>
                        Ok (mkCampaign (id campaign) (SendCampaign.name campaign)
                              (leads_csv campaign) boxes (daily_limit campaign)
                              (sequence campaign) (status campaign)
                              (created_at campaign) (leads campaign)
                              (started_at campaign))
                    end
                end
              with
              | Raise e => Raised e
              | Ok campaign => Finished (_save campaign files) None
              end
          end
      end
  end.

Definition main_start (now_id now_created now : datetime)
    (files : campaign_files) (a : args) : outcome :=
  match given (arg_campaign_id a) with
  | None => ParserError "--campaign-id required"
  | Some campaign_id =>
      match load now_id now_created files campaign_id with
      | Raise e => Raised e
      | Ok campaign =>
          match start now campaign files with
          | Raise e => Raised e
          | Ok (_, files', result) => Finished files' (Some result)
          end
      end
  end.

Definition main_metrics (files : campaign_files) (a : args) : outcome :=
  match given (arg_campaign_id a) with
  | None => ParserError "--campaign-id required"
  | Some campaign_id =>
      let metrics := get_metrics campaign_id in
      Finished files None
  end.

(** [main] has a branch for [create], [start] and [metrics]; [pause] and
    [resume] are accepted by the parser and fall through. *)
Definition main (now_id now_created now : datetime) (ins : inputs)
    (files : campaign_files) (a : args) : outcome :=
  match arg_action a with
  | Create => main_create now_id now_created ins files a
  | Start => main_start now_id now_created now files a
  | Metrics => main_metrics files a
  | Pause | Resume => Finished files None
  end.

End CampaignCli.

(** ** What [personalize] computes, placeholder by placeholder *)

Module Render.




End Render.

Import Render.

(** ** Dates: the arithmetic of [datetime] that the warmup script uses *)

Module Calendar.

(** [_is_leap], [_days_before_year], [_days_before_month], [_ymd2ord] and
    [_ord2ymd] of the [datetime] library, on integers. *)
Definition is_leap (year : Z) : bool :=
  (year mod 4 =? 0)%Z && (negb (year mod 100 =? 0)%Z || (year mod 400 =? 0)%Z).

Definition days_before_year (year : Z) : Z :=
  let y := (year - 1)%Z in
  (y * 365 + y / 4 - y / 100 + y / 400)%Z.

Definition DAYS_IN_MONTH : list Z :=
  [-1; 31; 28; 31; 30; 31; 30; 31; 31; 30; 31; 30; 31]%Z.

Definition DAYS_BEFORE_MONTH : list Z :=
  [-1; 0; 31; 59; 90; 120; 151; 181; 212; 243; 273; 304; 334]%Z.

Definition days_before_month (year : Z) (month : nat) : Z :=
  (nth month DAYS_BEFORE_MONTH 0 + (if (2 <? month)%nat && is_leap year then 1 else 0))%Z.

Definition ymd2ord (year : Z) (month : nat) (day : Z) : Z :=
  (days_before_year year + days_before_month year month + day)%Z.

Definition DI400Y : Z := days_before_year 401.
Definition DI100Y : Z := days_before_year 101.
Definition DI4Y : Z := days_before_year 5.
Definition MAXORDINAL : Z := 3652059.

Definition ord2ymd (n : Z) : Z * nat * Z :=
  let n := (n - 1)%Z in
  let n400 := (n / DI400Y)%Z in
  let n := (n mod DI400Y)%Z in
  let year := (n400 * 400 + 1)%Z in
  let n100 := (n / DI100Y)%Z in
  let n := (n mod DI100Y)%Z in
  let n4 := (n / DI4Y)%Z in
  let n := (n mod DI4Y)%Z in
  let n1 := (n / 365)%Z in
  let n := (n mod 365)%Z in
  let year := (year + n100 * 100 + n4 * 4 + n1)%Z in
  if (n1 =? 4)%Z || (n100 =? 4)%Z then ((year - 1)%Z, 12%nat, 31%Z)
  else
    let leapyear := (n1 =? 3)%Z && (negb (n4 =? 24)%Z || (n100 =? 3)%Z) in
    let month := Z.to_nat (Z.shiftr (n + 50) 5) in
    let preceding :=
      (nth month DAYS_BEFORE_MONTH 0
       + (if (2 <? month)%nat && leapyear then 1 else 0))%Z in
    if (preceding >? n)%Z then
      let month := (month - 1)%nat in
      let preceding :=
        (preceding - (nth month DAYS_IN_MONTH 0
                      + (if (month =? 2)%nat && leapyear then 1 else 0)))%Z in
      (year, month, (n - preceding + 1)%Z)
    else (year, month, (n - preceding + 1)%Z).

(** [t.toordinal()]. *)
Definition toordinal (t : datetime) : Z :=
  ymd2ord (Z.of_nat (dt_year t)) (dt_month t) (Z.of_nat (dt_day t)).

Definition seconds_of_day (t : datetime) : Z :=
  (Z.of_nat (dt_second t) + Z.of_nat (dt_minute t) * 60 + Z.of_nat (dt_hour t) * 3600)%Z.

(** [(a - b).days]: the difference is normalised so that its seconds and
    microseconds are not negative. *)
Definition days_between (a b : datetime) : Z :=
  (toordinal a - toordinal b
   + ((seconds_of_day a - seconds_of_day b) * 1000000
      + (Z.of_nat (dt_microsecond a) - Z.of_nat (dt_microsecond b)))
     / 86400000000)%Z.

(** [t + timedelta(days=d)]: [None] stands for the [OverflowError] that the
    [timedelta] constructor raises beyond 999999999 days and that the sum
    raises outside the years 1 to 9999. *)
Definition plus_days (t : datetime) (d : Z) : option datetime :=
  let n := (toordinal t + d)%Z in
  if (Z.abs d <=? 999999999)%Z && (0 <? n)%Z && (n <=? MAXORDINAL)%Z then
    let '(y, m, dd) := ord2ymd n in
    Some (mkDatetime (Z.to_nat y) m (Z.to_nat dd) (dt_hour t) (dt_minute t)
                     (dt_second t) (dt_microsecond t))
  else None.

End Calendar.

(** ** [warmup_account.py]: start, status and stop *)

Module WarmupLifecycle.

Import WarmupAccount Calendar.

(** [l[:stop]]. *)
Definition slice_to {A : Type} (l : list A) (stop : Z) : list A :=
  if (stop <? 0)%Z then take (Z.to_nat (Z.of_nat (length l) + stop)) l
  else take (Z.to_nat stop) l.

(** What [register_with_warmup_network] returns. *)
Record registration : Type := mkRegistration {
  reg_email : string;
  reg_pool : string;
  reg_status : string;
  reg_registered_at : datetime
}.

Definition register_with_warmup_network (now : datetime) (email pool : string)
  : registration :=
  mkRegistration email pool "registered" now.

(** [start_warmup] either returns the configuration it wrote, or leaves
    through the [OverflowError] of the date sum. [now_reg] is the clock
    reading of the registration, [now] the one that becomes [start_date]. *)
Inductive started : Type :=
| Done (files : warmup_files) (config : WarmupConfig)
| OverflowError.

Definition start_warmup (now_reg now : datetime) (files : warmup_files)
    (email warmup_pool : string) (daily_limit duration_days : Z) : started :=
  let registration := register_with_warmup_network now_reg email warmup_pool in
  let start_date := now in
  match plus_days start_date duration_days with
  | None => OverflowError
  | Some end_date =>
      let warmup_config :=
        mkWarmupConfig email "active" warmup_pool daily_limit start_date end_date 1
                       (slice_to DEFAULT_SCHEDULE duration_days)
                       (mkMetrics 0 0 0.0 0.0) None in
      Done (<[config_file email := warmup_config]> files) warmup_config
  end.

(** What [check_status] returns. *)
Inductive status_report : Type :=
| NotFound (email : string)
| Report (email status : string) (day daily_limit : Z) (expected_reply_rate : Q)
         (metrics : Metrics) (end_date : datetime).

Definition check_status (now : datetime) (files : warmup_files) (email : string)
  : result status_report :=
  match files !! config_file email with
  | None => Ok (NotFound email)
  | Some config =>
      let current_day := (days_between now (start_date config) + 1)%Z in
      schedule ← get_schedule_for_day current_day;
      Ok (Report email (status config) current_day (WarmupAccount.daily_limit schedule)
                 (reply_rate schedule) (metrics config) (end_date config))
  end.

(** What [stop_warmup] returns: [{"email": email, "status": ...}]. *)
Inductive stop_result : Type :=
| StopNotFound (email : string)
| Stopped (email : string).

Definition stop_warmup (now : datetime) (files : warmup_files) (email : string)
  : warmup_files * stop_result :=
  match files !! config_file email with
  | None => (files, StopNotFound email)
  | Some config =>
      let config :=
        mkWarmupConfig (WarmupAccount.email config) "stopped" (pool config)
                       (cfg_daily_limit config) (start_date config) (end_date config)
                       (current_day config) (schedule config) (metrics config)
                       (stopped_at config) in
      let config :=
        mkWarmupConfig (WarmupAccount.email config) (status config) (pool config)
                       (cfg_daily_limit config) (start_date config) (end_date config)
                       (current_day config) (schedule config) (metrics config)
                       (Some now) in
      (<[config_file email := config]> files, Stopped email)
  end.

End WarmupLifecycle.

(** ** [execution/purchase_domain.py] *)

Module PurchaseDomain.

(** [s.lstrip(c)] for a one-character set. *)
Fixpoint lstrip (c : ascii) (s : string) : string :=
  match s with
  | EmptyString => EmptyString
  | String a s' => if Ascii.eqb a c then lstrip c s' else s
  end.

(** What [check_availability] returns; the price is a float literal. *)
Record availability : Type := mkAvailability {
  av_domain : string;
  av_available : bool;
  av_price : Q
}.

(** What [purchase_domain] returns. *)
Record purchase : Type := mkPurchase {
  pu_domain : string;
  pu_status : string;
  pu_order_id : string;
  pu_expiry : datetime
}.

Abbreviation purchase_files := (gmap string (list purchase)).

(** The registrar calls are placeholders that never read the credentials,
    so the functions are stated for any type of credentials. *)
Definition check_availability {Config : Type} (domain : string) (config : Config)
  : availability :=
  mkAvailability domain true 12.99.

Definition purchase_domain {Config : Type} (now : datetime) (domain : string)
    (config : Config) : purchase :=
  mkPurchase domain "success" "placeholder" now.

Definition generate_domain_variants (base : string) (tlds : list string) : list string :=
  map (fun tld => base +:+ "." +:+ lstrip "." tld) tlds.

(** The availability loop, with its [break] once [quantity] domains are
    collected. *)
Fixpoint collect_available {Config : Type} (config : Config) (quantity : Z)
    (domains : list string) (available : list availability) : list availability :=
  match domains with
  | [] => available
  | domain :: domains' =>
      let result := check_availability domain config in
      if av_available result then
        let available := available ++ [result] in
        if (Z.of_nat (length available) >=? quantity)%Z then available
        else collect_available config quantity domains' available
      else collect_available config quantity domains' available
  end.

(** [purchase_domains] returns the availability list on a dry run, and
    otherwise the purchases, after writing them to a file. *)
Inductive purchased : Type :=
| DryRun (available : list availability)
| Bought (files : purchase_files) (results : list purchase).

(** [config] is the content of the credentials file, [None] when the file
    does not exist; [clock i] is the clock reading of the [i]-th purchase and
    [now_file] the one that names the output file. *)
Definition purchase_domains {Config : Type} (config : option Config)
    (clock : nat -> datetime) (now_file : datetime) (files : purchase_files)
    (base_domain : string) (tlds : option (list string)) (quantity : Z)
    (dry_run : bool) : result purchased :=
  let tlds := match tlds with
              | None => [".com"; ".io"; ".co"; ".net"]
              | Some tlds => tlds
              end in
  match config with
  | None => Raise FileNotFoundError
  | Some config =>
      let domains := generate_domain_variants base_domain tlds in
      let available := collect_available config quantity domains [] in
      if dry_run then Ok (DryRun available)
      else
        let results :=
          imap (fun i domain_info => purchase_domain (clock i) (av_domain domain_info) config)
               (WarmupLifecycle.slice_to available quantity) in
        let output_file := "purchase_" +:+ strftime_id now_file +:+ ".json" in
        Ok (Bought (<[output_file := results]> files) results)
  end.

End PurchaseDomain.

(** ** [execution/setup_dns.py] *)

Module SetupDns.

(** What [create_dns_record] returns. *)
Record dns_record : Type := mkDnsRecord {
  dr_type : string;
  dr_name : string;
  dr_content : string;
  dr_status : string
}.

Definition get_zone_id {Config : Type} (domain : string) (config : Config) : string :=
  "placeholder_zone_id".

Definition create_dns_record {Config : Type} (zone_id record_type name content : string)
    (config : Config) (priority : option Z) (ttl : Z) : dns_record :=
  mkDnsRecord record_type name content "success".

(** [spf_records.get(provider, "v=spf1 ~all")]. *)
Definition spf_content (provider : string) : string :=
  if String.eqb provider "google" then "v=spf1 include:_spf.google.com ~all"
  else if String.eqb provider "microsoft"
       then "v=spf1 include:spf.protection.outlook.com ~all"
  else if String.eqb provider "sendgrid" then "v=spf1 include:sendgrid.net ~all"
  else "v=spf1 ~all".

Definition configure_spf {Config : Type} (domain zone_id provider : string)
    (config : Config) : dns_record :=
  let content := spf_content provider in
  create_dns_record zone_id "TXT" domain content config None 3600.

Definition configure_dkim {Config : Type} (domain zone_id provider selector : string)
    (config : Config) : dns_record :=
  let name := selector +:+ "._domainkey." +:+ domain in
  let content := "DKIM_KEY_PLACEHOLDER" in
  create_dns_record zone_id "TXT" name content config None 3600.

Definition configure_dmarc {Config : Type} (domain zone_id policy rua_email : string)
    (config : Config) : dns_record :=
  let name := "_dmarc." +:+ domain in
  let content := "v=DMARC1; p=" +:+ policy +:+ "; rua=mailto:" +:+ rua_email in
  create_dns_record zone_id "TXT" name content config None 3600.

(** [mx_records.get(provider, [])]. *)
Definition mx_servers (domain provider : string) : list (Z * string) :=
  if String.eqb provider "google" then
    [(1, "aspmx.l.google.com"); (5, "alt1.aspmx.l.google.com");
     (5, "alt2.aspmx.l.google.com"); (10, "alt3.aspmx.l.google.com");
     (10, "alt4.aspmx.l.google.com")]%Z
  else if String.eqb provider "microsoft" then
    [(0%Z, replace domain "." "-" +:+ ".mail.protection.outlook.com")]
  else [].

Definition configure_mx {Config : Type} (domain zone_id provider : string)
    (config : Config) : list dns_record :=
  map (fun '(priority, server) =>
         create_dns_record zone_id "MX" domain server config (Some priority) 3600)
      (mx_servers domain provider).

(** What [configure_dns] returns. *)
Record dns_results : Type := mkDnsResults {
  res_domain : string;
  res_provider : string;
  res_records : list dns_record
}.

(** [config] is the content of the credentials file, [None] when it does
    not exist. *)
Definition configure_dns {Config : Type} (config : option Config) (domain : string)
    (email_provider : string) (enable_dmarc : bool) (dmarc_policy dkim_selector : string)
  : result dns_results :=
  match config with
  | None => Raise FileNotFoundError
  | Some config =>
      let zone_id := get_zone_id domain config in
      let records := [] in
      let spf := configure_spf domain zone_id email_provider config in
      let records := records ++ [spf] in
      let mx := configure_mx domain zone_id email_provider config in
      let records := records ++ mx in
      let dkim := configure_dkim domain zone_id email_provider dkim_selector config in
      let records := records ++ [dkim] in
      let records :=
        if enable_dmarc
        then records ++ [configure_dmarc domain zone_id dmarc_policy
                                         ("dmarc@" +:+ domain) config]
        else records in
      Ok (mkDnsResults domain email_provider records)
  end.

End SetupDns.

(** ** [execution/check_deliverability.py]: the record checks *)

Module Deliverability.

(** The code points below 256 that [str.strip] removes. *)
Definition is_space (c : ascii) : bool :=
  let n := nat_of_ascii c in
  ((9 <=? n)%nat && (n <=? 13)%nat) || ((28 <=? n)%nat && (n <=? 32)%nat)
  || (n =? 133)%nat || (n =? 160)%nat.

Fixpoint lstrip_space (s : string) : string :=
  match s with
  | EmptyString => EmptyString
  | String c s' => if is_space c then lstrip_space s' else s
  end.

Fixpoint rstrip_space (s : string) : string :=
  match s with
  | EmptyString => EmptyString
  | String c s' =>
      match rstrip_space s' with
      | EmptyString => if is_space c then EmptyString else String c EmptyString
      | r => String c r
      end
  end.

Definition strip (s : string) : string := rstrip_space (lstrip_space s).

(** What [subprocess.run] gives a check: the standard output of [dig], or
    the text of the exception it raised. *)
Inductive dig : Type :=
| Stdout (output : string)
| Failed (message : string).

(** The dictionary of [check_spf]: the keys [exists], [valid], [score], and
    either [record] or [error]. *)
Record spf_result : Type := mkSpfResult {
  spf_exists : bool;
  spf_valid : bool;
  spf_record : option string;
  spf_error : option string;
  spf_score : Q
}.

Definition check_spf (run : dig) : spf_result :=
  match run with
  | Stdout output =>
      let has_spf := contains "v=spf1" output in
      let valid := has_spf && (contains "~all" output || contains "-all" output) in
      mkSpfResult has_spf valid (if has_spf then Some (strip output) else None) None
                  (if valid then 1.0 else if has_spf then 0.5 else 0.0)%Q
  | Failed message => mkSpfResult false false None (Some message) 0.0
  end.

(** The dictionary of [check_dmarc]: [exists] and [score], and either
    [policy] and [record] or [error]. *)
Record dmarc_result : Type := mkDmarcResult {
  dmarc_exists : bool;
  dmarc_policy : option string;
  dmarc_record : option string;
  dmarc_error : option string;
  dmarc_score : Q
}.

Definition check_dmarc (run : dig) : dmarc_result :=
  match run with
  | Stdout stdout =>
      let output := strip stdout in
      let has_dmarc := contains "v=DMARC1" output in
      let policy :=
        if has_dmarc then
          if contains "p=reject" output then Some "reject"
          else if contains "p=quarantine" output then Some "quarantine"
          else if contains "p=none" output then Some "none"
          else None
        else None in
      let score :=
        match policy with
        | Some "reject" => 1.0%Q
        | Some "quarantine" => 0.8%Q
        | Some "none" => 0.5%Q
        | _ => 0.0%Q
        end in
      mkDmarcResult has_dmarc policy (if has_dmarc then Some output else None) None score
  | Failed message => mkDmarcResult false None None (Some message) 0.0
  end.

End Deliverability.

(** ** [execution/create_mailbox.py]: the address patterns *)

Module CreateMailbox.

(** [c.lower()] for a code point below 256: the letters A to Z and the
    capital letters of Latin-1. *)
Definition lower_char (c : ascii) : ascii :=
  let n := nat_of_ascii c in
  if ((65 <=? n)%nat && (n <=? 90)%nat)
     || ((192 <=? n)%nat && (n <=? 222)%nat && negb (n =? 215)%nat)
  then ascii_of_nat (n + 32) else c.

Fixpoint lower (s : string) : string :=
  match s with
  | EmptyString => EmptyString
  | String c s' => String (lower_char c) (lower s')
  end.

(** [s[0]]. *)
Definition first_char (s : string) : result string :=
  match s with
  | EmptyString => Raise IndexError
  | String c _ => Ok (String c EmptyString)
  end.

(** The dictionary of patterns is built whole before the lookup, so both
    initials are taken whatever the pattern is. *)
Definition create_email_address (first last domain pattern : string) : result string :=
  let first_last := lower first +:+ "." +:+ lower last +:+ "@" +:+ domain in
  f0 ← first_char first;
  let f_last := lower f0 +:+ "." +:+ lower last +:+ "@" +:+ domain in
  let first_only := lower first +:+ "@" +:+ domain in
  l0 ← first_char last;
  let firstl := lower first +:+ lower l0 +:+ "@" +:+ domain in
  Ok (if String.eqb pattern "first.last" then first_last
      else if String.eqb pattern "f.last" then f_last
      else if String.eqb pattern "first" then first_only
      else if String.eqb pattern "firstl" then firstl
      else first_last).

End CreateMailbox.

(** ** Vocabulary of the lifecycle properties *)

Module LifecycleSpec.

(** Two clock readings within the same second. *)
Definition same_second (a b : datetime) : Prop :=
  dt_year a = dt_year b /\ dt_month a = dt_month b /\ dt_day a = dt_day b
  /\ dt_hour a = dt_hour b /\ dt_minute a = dt_minute b
  /\ dt_second a = dt_second b.

(** Every value under a column name is a string. *)
Definition str_valued (d : dict) : bool :=
  forallb (fun kv => match fst kv with
                     | Some _ => is_str (snd kv)
                     | None => true
                     end) d.

(** A data row that [csv.DictReader] skips, or that has a cell for every
    column of the header. *)
Definition covers (header row : list string) : Prop :=
  row = [] \/ (length header <= length row)%nat.

End LifecycleSpec.

Import LifecycleSpec.

(** ** Further concrete inputs *)

Module MoreSamples.

(** [Samples.ready] with five leads. *)
Definition five_leads : Campaign :=
  set_leads Samples.ready (replicate 5 Samples.alice).

(** A lead whose typed fields are all [None]. *)
Definition untyped : Lead := mkLead PNone PNone PNone None.

End MoreSamples.

(** ** Facts about strings *)

Section Strings.

Lemma append_cons (x : ascii) (a b : string) :
  String x a +:+ b = String x (a +:+ b).
Proof. reflexivity. Qed.

Lemma append_nil_l (b : string) : EmptyString +:+ b = b.
Proof. reflexivity. Qed.

Lemma append_assoc (a b c : string) : (a +:+ b) +:+ c = a +:+ (b +:+ c).
Proof.
  induction a as [|x a IH]; [reflexivity|].
  rewrite !append_cons. now rewrite IH.
Qed.

Lemma append_nil_r (a : string) : a +:+ EmptyString = a.
Proof.
  induction a as [|x a IH]; [reflexivity|].
  rewrite append_cons. now rewrite IH.
Qed.

Lemma prefix_head_ne (a b : ascii) (old s : string) :
  a <> b -> String.prefix (String a old) (String b s) = false.
Proof. intros ne. simpl. now destruct (ascii_dec a b). Qed.

Lemma prefix_head_eq (a : ascii) (old s : string) :
  String.prefix (String a old) (String a s) = String.prefix old s.
Proof. simpl. destruct (ascii_dec a a) as [_|ne]; [reflexivity | now destruct ne]. Qed.

Lemma prefix_append (old r : string) : String.prefix old (old +:+ r) = true.
Proof.
  induction old as [|a old IH].
  - now destruct r.
  - rewrite append_cons, prefix_head_eq. exact IH.
Qed.

Lemma no_char_append (c : ascii) (a b : string) :
  no_char c (a +:+ b) = no_char c a && no_char c b.
Proof.
  induction a as [|x a IH]; [reflexivity|].
  rewrite append_cons. simpl. rewrite IH. now rewrite andb_assoc.
Qed.

Lemma no_char_head (c a : ascii) (s : string) :
  no_char c (String a s) = true -> a <> c /\ no_char c s = true.
Proof.
  simpl. intros H. apply andb_prop in H as [H1 H2]. split; [|exact H2].
  intros ->. now rewrite Ascii.eqb_refl in H1.
Qed.

(** A string without the first character of [sub] does not contain [sub]. *)
Lemma no_char_contains (c : ascii) (sub s : string) :
  no_char c s = true -> contains (String c sub) s = false.
Proof.
  induction s as [|a s IH]; intros H.
  - reflexivity.
  - apply no_char_head in H as [ne H].
    cbn [contains]. rewrite prefix_head_ne by congruence. now rewrite IH.
Qed.

(** *** The scan of [replace] *)

Variables old new : string.

Lemma replace_from_skip (x r : string) :
  replace_from old new (String.length x) (x +:+ r) = replace_from old new 0 r.
Proof.
  induction x as [|a x IH].
  - now destruct r.
  - rewrite append_cons. simpl. exact IH.
Qed.

Lemma replace_from_match (a : ascii) (o r : string) :
  old = String a o ->
  replace_from old new 0 (old +:+ r) = new +:+ replace_from old new 0 r.
Proof.
  intros E. pose proof (prefix_append old r) as P.
  pose proof (replace_from_skip o r) as K.
  rewrite E in P, K |- *. rewrite append_cons in P |- *.
  cbn [replace_from]. rewrite P. f_equal.
  cbn [String.length]. rewrite Nat.sub_1_r. exact K.
Qed.

Lemma replace_from_miss (c : ascii) (s : string) :
  String.prefix old (String c s) = false ->
  replace_from old new 0 (String c s) = String c (replace_from old new 0 s).
Proof. intros H. cbn [replace_from]. now rewrite H. Qed.

(** Text without the first character of [old] is copied. *)
Lemma replace_from_pass (a : ascii) (o s r : string) :
  old = String a o -> no_char a s = true ->
  replace_from old new 0 (s +:+ r) = s +:+ replace_from old new 0 r.
Proof.
  intros E. induction s as [|c s IH]; intros H.
  - reflexivity.
  - apply no_char_head in H as [ne H].
    rewrite !append_cons. rewrite replace_from_miss.
    + now rewrite IH.
    + rewrite E. apply prefix_head_ne. congruence.
Qed.

End Strings.

(** ** [replace] on a template read as pieces *)

Section Pieces.

Lemma replace_nonempty (s new : string) (a : ascii) (o : string) :
  replace s (String a o) new = replace_from (String a o) new 0 s.
Proof. reflexivity. Qed.

Lemma placeholder_cons (key : string) :
  placeholder key = String "{" (String "{" (key +:+ "}}")).
Proof. reflexivity. Qed.

(** Two placeholders without closing brace in their keys: one is a prefix
    of the other followed by anything only if the keys are equal. *)
Lemma key_prefix_eq (k k' r : string) :
  no_char "}" k = true -> no_char "}" k' = true ->
  String.prefix (k +:+ "}}") (k' +:+ "}}" +:+ r) = true -> k = k'.
Proof.
  revert k'. induction k as [|a k IH]; intros [|b k'] Hk Hk' P.
  - reflexivity.
  - apply no_char_head in Hk' as [ne _].
    rewrite append_nil_l, append_cons in P.
    rewrite prefix_head_ne in P by congruence. discriminate.
  - apply no_char_head in Hk as [ne _].
    rewrite append_nil_l, append_cons in P.
    change ("}}" +:+ r) with (String "}" (String "}" r)) in P.
    rewrite prefix_head_ne in P by congruence. discriminate.
  - apply no_char_head in Hk as [_ Hk]. apply no_char_head in Hk' as [_ Hk'].
    rewrite !append_cons in P.
    destruct (ascii_dec a b) as [->|ne].
    + rewrite prefix_head_eq in P. f_equal. now apply (IH k').
    + rewrite prefix_head_ne in P by assumption. discriminate.
Qed.

Variables (key value : string).
Hypothesis key_ok : no_char "}" key = true.

Lemma replace_text (s r : string) :
  no_char "{" s = true ->
  replace_from (placeholder key) value 0 (s +:+ r)
  = s +:+ replace_from (placeholder key) value 0 r.
Proof.
  intros H. eapply replace_from_pass; [apply placeholder_cons | exact H].
Qed.

Lemma replace_same (r : string) :
  replace_from (placeholder key) value 0 (placeholder key +:+ r)
  = value +:+ replace_from (placeholder key) value 0 r.
Proof. eapply replace_from_match. apply placeholder_cons. Qed.

Lemma replace_other (key' r : string) :
  brace_free key' = true -> key' <> key ->
  replace_from (placeholder key) value 0 (placeholder key' +:+ r)
  = placeholder key' +:+ replace_from (placeholder key) value 0 r.
Proof.
  intros B ne. apply andb_prop in B as [Bl Br].
  assert (T : no_char "{" (key' +:+ "}}") = true).
  { rewrite no_char_append, Bl. reflexivity. }
  rewrite (placeholder_cons key'), !append_cons.
  rewrite replace_from_miss.
  2:{ rewrite placeholder_cons, !prefix_head_eq.
      destruct (String.prefix (key +:+ "}}") ((key' +:+ "}}") +:+ r)) eqn:P;
        [|reflexivity].
      rewrite append_assoc in P.
      apply key_prefix_eq in P; [congruence | assumption | assumption]. }
  f_equal. rewrite replace_from_miss.
  2:{ rewrite placeholder_cons, prefix_head_eq.
      destruct (key' +:+ "}}") as [|c t] eqn:E; [now destruct key'|].
      apply no_char_head in T as [neq _].
      rewrite append_cons. apply prefix_head_ne. congruence. }
  f_equal. now apply replace_text.
Qed.

(** One call of [replace] fills the placeholders of its key and nothing
    else. *)
Lemma replace_pieces (ps : list piece) :
  forallb piece_ok ps = true ->
  replace (template_text ps) (placeholder key) value
  = template_text (map (fill key value) ps).
Proof.
  rewrite placeholder_cons, replace_nonempty, <- placeholder_cons.
  induction ps as [|p ps IH]; intros H.
  - reflexivity.
  - cbn [forallb] in H. apply andb_prop in H as [Hp H].
    cbn [template_text map]. destruct p as [s|key']; cbn [piece_text fill].
    + rewrite replace_text by exact Hp. now rewrite IH.
    + destruct (String.eqb_spec key' key) as [->|ne]; cbn [piece_text].
      * rewrite replace_same. now rewrite IH.
      * rewrite replace_other by assumption. now rewrite IH.
Qed.

End Pieces.

(** ** [personalize] on a template read as pieces *)

Section Personalize.

Lemma mem_cons (x k : string) (l : list string) :
  mem x (k :: l) = String.eqb x k || mem x l.
Proof. reflexivity. Qed.

Lemma mem_app (x : string) (l1 l2 : list string) :
  mem x (l1 ++ l2) = mem x l1 || mem x l2.
Proof. apply existsb_app. Qed.

Lemma keys_of_cons (p : piece) (ps : list piece) :
  keys_of (p :: ps) = keys_of [p] ++ keys_of ps.
Proof. unfold keys_of. cbn [flat_map]. now rewrite app_nil_r. Qed.

Lemma keys_fill (x key value : string) (ps : list piece) :
  mem x (keys_of (map (fill key value) ps))
  = mem x (keys_of ps) && negb (String.eqb x key).
Proof.
  induction ps as [|p ps IH]; [reflexivity|].
  cbn [map]. rewrite keys_of_cons, (keys_of_cons p), !mem_app, IH.
  destruct p as [s|k]; cbn [fill]; [reflexivity|].
  destruct (String.eqb_spec k key) as [->|ne]; cbn [keys_of flat_map app mem existsb].
  - destruct (String.eqb x key); [|reflexivity].
    cbn. now rewrite andb_false_r.
  - destruct (String.eqb_spec x k) as [->|ne']; cbn [orb]; [|reflexivity].
    apply String.eqb_neq in ne. now rewrite ne.
Qed.

Lemma fill_absent (key value : string) (ps : list piece) :
  mem key (keys_of ps) = false -> map (fill key value) ps = ps.
Proof.
  induction ps as [|p ps IH]; intros H; [reflexivity|].
  rewrite keys_of_cons, mem_app in H. apply orb_false_elim in H as [Hp H].
  cbn [map]. rewrite IH by exact H. f_equal.
  destruct p as [s|k]; [reflexivity|]. cbn [fill].
  cbn in Hp. rewrite orb_false_r in Hp. rewrite String.eqb_sym in Hp.
  now rewrite Hp.
Qed.

Lemma fill_ok (key value : string) (ps : list piece) :
  forallb piece_ok ps = true -> no_char "{" value = true ->
  forallb piece_ok (map (fill key value) ps) = true.
Proof.
  intros H V. induction ps as [|p ps IH]; [reflexivity|].
  cbn [forallb] in H. apply andb_prop in H as [Hp H].
  cbn [map forallb]. rewrite IH by exact H. rewrite andb_true_r.
  destruct p as [s|k]; [exact Hp|]. cbn [fill].
  destruct (String.eqb k key); [exact V | exact Hp].
Qed.

(** Without placeholders, well-formed pieces spell a text without opening
    brace. *)
Lemma text_only_no_brace (ps : list piece) :
  forallb piece_ok ps = true -> keys_of ps = [] ->
  no_char "{" (template_text ps) = true.
Proof.
  induction ps as [|p ps IH]; intros H K; [reflexivity|].
  cbn [forallb] in H. apply andb_prop in H as [Hp H].
  rewrite keys_of_cons in K. apply app_eq_nil in K as [Kp K].
  destruct p as [s|k]; [|discriminate].
  cbn [template_text piece_text]. rewrite no_char_append.
  cbn [piece_ok] in Hp. now rewrite Hp, IH.
Qed.

(** The loop over [extra], item by item. *)
Lemma replace_items_pieces (shadowed : list string) (d : dict) :
  forall ps : list piece,
    forallb piece_ok ps = true ->
    forallb (item_ok shadowed) d = true ->
    (forall k, mem k shadowed = true -> mem k (keys_of ps) = false) ->
    replace_items d (template_text ps) = template_text (fill_items d ps)
    /\ forallb piece_ok (fill_items d ps) = true
    /\ (forall k, mem k shadowed = true -> mem k (keys_of (fill_items d ps)) = false).
Proof.
  induction d as [|[key value] d IH]; intros ps Hps Hd Hsh.
  - now repeat split.
  - cbn [forallb] in Hd. apply andb_prop in Hd as [Hkv Hd].
    unfold item_ok in Hkv. cbn [fst snd] in Hkv.
    apply andb_prop in Hkv as [Hk Hv].
    pose proof Hk as Hk'. apply andb_prop in Hk' as [_ Hk'].
    unfold replace_items, fill_items. cbn [fold_left fst snd].
    change ("{{" +:+ format_key key +:+ "}}") with (placeholder (format_key key)).
    rewrite replace_pieces by assumption.
    apply IH; [|exact Hd|].
    + apply orb_prop in Hv as [Hv|Hv].
      * now apply fill_ok.
      * rewrite fill_absent; [exact Hps | now apply Hsh].
    + intros k Hm. rewrite keys_fill, (Hsh k Hm). reflexivity.
Qed.

(** The three typed replacements. *)
Lemma replace_typed_pieces (fn cn em : string) (ps : list piece) :
  forallb piece_ok ps = true ->
  no_char "{" fn = true -> no_char "{" cn = true -> no_char "{" em = true ->
  replace (replace (replace (template_text ps) "{{first_name}}" fn)
                   "{{company_name}}" cn) "{{email}}" em
  = template_text (fill_typed fn cn em ps)
  /\ forallb piece_ok (fill_typed fn cn em ps) = true
  /\ (forall k, mem k typed_names = true ->
                mem k (keys_of (fill_typed fn cn em ps)) = false).
Proof.
  intros Hps Hfn Hcn Hem. unfold fill_typed.
  change "{{first_name}}" with (placeholder "first_name").
  change "{{company_name}}" with (placeholder "company_name").
  change "{{email}}" with (placeholder "email").
  assert (H1 := fill_ok "first_name" fn ps Hps Hfn).
  assert (H2 := fill_ok "company_name" cn _ H1 Hcn).
  assert (H3 := fill_ok "email" em _ H2 Hem).
  rewrite !replace_pieces by (assumption || reflexivity).
  split; [reflexivity|]. split; [exact H3|].
  intros k Hk. rewrite !keys_fill.
  unfold typed_names in Hk. rewrite !mem_cons in Hk. cbn [mem existsb] in Hk.
  destruct (String.eqb k "first_name"); [now rewrite !andb_false_r|].
  destruct (String.eqb k "company_name"); [now rewrite !andb_false_r|].
  destruct (String.eqb k "email"); [now rewrite !andb_false_r|].
  discriminate.
Qed.

(** [personalize] on a lead whose typed fields are strings. *)
Lemma personalize_str (template em fn cn : string) (ex : option dict) :
  personalize template (mkLead (PStr em) (PStr fn) (PStr cn) ex)
  = Ok (replace_items (extra_items (mkLead (PStr em) (PStr fn) (PStr cn) ex))
          (replace (replace (replace template "{{first_name}}" fn)
                            "{{company_name}}" cn) "{{email}}" em)).
Proof. destruct ex as [[|kv d]|]; reflexivity. Qed.

End Personalize.

(** ** Properties of the template renderer *)

Section Renderer.

Lemma str_no_brace_inv (v : pyval) :
  str_no_brace v = true -> exists s, v = PStr s /\ no_char "{" s = true.
Proof. destruct v as [s| |l]; try discriminate. intros H. now exists s. Qed.

Lemma clean_lead_inv (shadowed : list string) (lead : Lead) :
  clean_lead shadowed lead = true ->
  exists em fn cn,
    lead = mkLead (PStr em) (PStr fn) (PStr cn) (extra lead)
    /\ no_char "{" em = true /\ no_char "{" fn = true /\ no_char "{" cn = true
    /\ forallb (item_ok shadowed) (extra_items lead) = true.
Proof.
  unfold clean_lead. intros H.
  apply andb_prop in H as [H Hex]. apply andb_prop in H as [H Hem].
  apply andb_prop in H as [Hfn Hcn].
  apply str_no_brace_inv in Hfn as (fn & Efn & Hfn).
  apply str_no_brace_inv in Hcn as (cn & Ecn & Hcn).
  apply str_no_brace_inv in Hem as (em & Eem & Hem).
  exists em, fn, cn. destruct lead as [e f c x]. cbn in *. subst.
  now repeat split.
Qed.

Lemma keys_fill_items (x : string) (d : dict) :
  forall ps : list piece,
    mem x (keys_of (fill_items d ps))
    = mem x (keys_of ps) && negb (mem x (map (fun kv => format_key (fst kv)) d)).
Proof.
  induction d as [|kv d IH]; intros ps.
  - cbn. now rewrite andb_true_r.
  - unfold fill_items. cbn [fold_left]. fold (fill_items d).
    rewrite IH, keys_fill. cbn [map]. rewrite mem_cons, negb_orb.
    now rewrite andb_assoc.
Qed.

Lemma keys_fill_typed (x fn cn em : string) (ps : list piece) :
  mem x (keys_of (fill_typed fn cn em ps))
  = mem x (keys_of ps) && negb (mem x typed_names).
Proof.
  unfold fill_typed, typed_names. rewrite !keys_fill, !mem_cons.
  cbn [mem existsb]. rewrite orb_false_r, !negb_orb.
  destruct (mem x (keys_of ps)), (String.eqb x "first_name"),
    (String.eqb x "company_name"), (String.eqb x "email"); reflexivity.
Qed.

Lemma mem_forallb (x : string) (l names : list string) :
  forallb (fun k => mem k names) l = true -> mem x l = true -> mem x names = true.
Proof.
  intros H M. unfold mem in M at 1. apply existsb_exists in M as (y & Iy & E).
  apply String.eqb_eq in E as ->.
  rewrite forallb_forall in H. now apply H.
Qed.

Lemma no_mem_nil (l : list string) : (forall x, mem x l = false) -> l = [].
Proof.
  destruct l as [|y l]; [reflexivity|]. intros H. specialize (H y).
  rewrite mem_cons, String.eqb_refl in H. discriminate.
Qed.

Lemma fill_items_agree (d1 d2 : dict) :
  agree_off_typed d1 d2 ->
  forall ps : list piece,
    (forall k, mem k typed_names = true -> mem k (keys_of ps) = false) ->
    fill_items d1 ps = fill_items d2 ps.
Proof.
  induction 1 as [|[k1 v1] [k2 v2] d1 d2 [Ek Ev] _ IH]; intros ps Hps.
  - reflexivity.
  - cbn [fst snd] in Ek, Ev. subst k2.
    unfold fill_items. cbn [fold_left fst snd]. fold (fill_items d1) (fill_items d2).
    destruct Ev as [->|Hk].
    + apply IH. intros k Hm. rewrite keys_fill, (Hps k Hm). reflexivity.
    + rewrite !fill_absent by now apply Hps. now apply IH.
Qed.

Lemma items_ok_agree (d1 d2 : dict) :
  agree_off_typed d1 d2 ->
  forallb (item_ok typed_names) d1 = true ->
  forallb (item_ok typed_names) d2 = true.
Proof.
  induction 1 as [|[k1 v1] [k2 v2] d1 d2 [Ek Ev] _ IH]; intros H.
  - reflexivity.
  - cbn [fst snd] in Ek, Ev. subst k2.
    cbn [forallb] in H |- *. apply andb_prop in H as [Hkv H].
    rewrite IH by exact H. rewrite andb_true_r.
    destruct Ev as [->|Hk]; [exact Hkv|].
    unfold item_ok in Hkv |- *. cbn [fst snd] in Hkv |- *.
    apply andb_prop in Hkv as [Hb _]. now rewrite Hb, Hk, orb_true_r.
Qed.

(** C8 as stated fails: the recognised placeholder of [hello_company] is
    replaced by a company name that itself contains the marker. *)
Lemma C8_braces_in_value :
  forallb piece_ok Samples.hello_company = true
  /\ all_recognized Samples.braces Samples.hello_company = true
  /\ personalize (template_text Samples.hello_company) Samples.braces
     = Ok "Hello {{Curly}}"
  /\ contains "{{" "Hello {{Curly}}" = true.
Proof. repeat split. Qed.

(** C8, amended: for every lead whose typed fields and [extra] values are
    strings without opening brace and whose [extra] keys have no brace, and
    every template made of brace-free text and recognised placeholders,
    [personalize] returns a text without the marker. *)
Theorem C8_render_resolved (ps : list piece) (lead : Lead) :
  forallb piece_ok ps = true ->
  all_recognized lead ps = true ->
  clean_lead [] lead = true ->
  exists out, personalize (template_text ps) lead = Ok out
              /\ contains "{{" out = false.
Proof.
  intros Hps Hrec Hlead.
  apply clean_lead_inv in Hlead as (em & fn & cn & E & Hem & Hfn & Hcn & Hex).
  rewrite E in Hrec |- *. rewrite E in Hex. clear E.
  set (L := mkLead (PStr em) (PStr fn) (PStr cn) (extra lead)) in *.
  unfold L at 1. rewrite personalize_str. fold L.
  destruct (replace_typed_pieces fn cn em ps Hps Hfn Hcn Hem) as (-> & Hps3 & _).
  destruct (replace_items_pieces [] (extra_items L) _ Hps3 Hex) as (-> & Hps4 & _).
  { intros k Hk. discriminate. }
  eexists. split; [reflexivity|].
  apply no_char_contains, text_only_no_brace; [exact Hps4|].
  apply no_mem_nil. intros x.
  rewrite keys_fill_items, keys_fill_typed.
  destruct (mem x (keys_of ps)) eqn:M; [|reflexivity].
  pose proof (mem_forallb x _ _ Hrec M) as R.
  unfold recognized in R. rewrite mem_app in R.
  destruct (mem x typed_names); [reflexivity|].
  cbn [orb] in R. cbn [negb andb]. now rewrite R.
Qed.

Lemma C8_render_resolved_witness :
  forallb piece_ok Samples.greeting = true
  /\ all_recognized Samples.alice Samples.greeting = true
  /\ clean_lead [] Samples.alice = true
  /\ exists out, personalize (template_text Samples.greeting) Samples.alice = Ok out
                 /\ contains "{{" out = false.
Proof.
  split; [reflexivity|]. split; [reflexivity|]. split; [reflexivity|].
  apply (C8_render_resolved Samples.greeting Samples.alice); reflexivity.
Defined.

(** C9 as stated fails: the company name is consumed after [first_name]
    and leaves a [first_name] placeholder that only the loop over [extra]
    sees, so the value [extra] gives for [first_name] decides the output. *)
Lemma C9_extra_value_shows :
  personalize (template_text Samples.hello_company) (Samples.shadow "Zed")
  = Ok "Hello Zed"
  /\ personalize (template_text Samples.hello_company) (Samples.shadow "Bob")
     = Ok "Hello Bob".
Proof. split; reflexivity. Qed.

(** C9, amended: for every template made of brace-free text and
    placeholders with brace-free keys, and every two leads with the same
    typed fields, each a string without opening brace, whose [extra] have
    the same keys and differ only in the values under typed-field names
    (the other values having no opening brace), [personalize] returns the
    same result: the typed field decides, the conflicting value is never
    read into the output. *)
Theorem C9_typed_field_wins (ps : list piece) (lead1 lead2 : Lead) :
  forallb piece_ok ps = true ->
  clean_lead typed_names lead1 = true ->
  email lead2 = email lead1 ->
  first_name lead2 = first_name lead1 ->
  company_name lead2 = company_name lead1 ->
  agree_off_typed (extra_items lead1) (extra_items lead2) ->
  personalize (template_text ps) lead1 = personalize (template_text ps) lead2.
Proof.
  intros Hps H1 Eem Efn Ecn Hag.
  apply clean_lead_inv in H1 as (em & fn & cn & E1 & Hem & Hfn & Hcn & Hex1).
  assert (E2 : lead2 = mkLead (PStr em) (PStr fn) (PStr cn) (extra lead2)).
  { destruct lead2 as [e f c x]. cbn in *. rewrite E1 in Eem, Efn, Ecn.
    cbn in *. now subst. }
  pose proof (items_ok_agree _ _ Hag Hex1) as Hex2.
  rewrite E1, E2, !personalize_str. rewrite <- E1, <- E2. f_equal.
  destruct (replace_typed_pieces fn cn em ps Hps Hfn Hcn Hem) as (-> & Hps3 & Hsh).
  destruct (replace_items_pieces _ _ _ Hps3 Hex1 Hsh) as (-> & _ & _).
  destruct (replace_items_pieces _ _ _ Hps3 Hex2 Hsh) as (-> & _ & _).
  f_equal. now apply fill_items_agree.
Qed.

Lemma C9_typed_field_wins_witness :
  personalize (template_text Samples.greeting) (Samples.plain "Zed")
  = personalize (template_text Samples.greeting) (Samples.plain "Bob").
Proof.
  apply (C9_typed_field_wins Samples.greeting (Samples.plain "Zed") (Samples.plain "Bob"));
    try reflexivity.
  constructor; [split; [reflexivity | right; reflexivity]|].
  constructor; [split; [reflexivity | left; reflexivity]|].
  constructor.
Defined.

End Renderer.

(** ** Properties of the validator *)

Section Validator.

Lemma bind_ok {A B : Type} (a : A) (f : A -> result B) : Ok a ≫= f = f a.
Proof. reflexivity. Qed.

Lemma personalize_typed (body : string) (lead : Lead) :
  lead_typed lead = true -> exists out, personalize body lead = Ok out.
Proof.
  destruct lead as [[em| |] [fn| |] [cn| |] ex]; try discriminate.
  intros _. rewrite personalize_str. eauto.
Qed.

(** The inner loop with its [break] computes an [existsb]. *)
Lemma unresolved_in_spec (body : string) (sample : list Lead) :
  forallb lead_typed sample = true ->
  unresolved_in body sample = Ok (existsb (leaves_marker body) sample).
Proof.
  induction sample as [|lead sample IH]; intros H; [reflexivity|].
  cbn [forallb] in H. apply andb_prop in H as [Hl H].
  destruct (personalize_typed body lead Hl) as [out E].
  cbn [unresolved_in existsb]. unfold leaves_marker at 1. rewrite E. cbn.
  destruct (contains "{{" out); [reflexivity | now apply IH].
Qed.

(** The outer loop appends the errors of the steps in order. *)
Lemma check_sequence_spec (sample : list Lead) :
  forallb lead_typed sample = true ->
  forall (seq : list EmailTemplate) (i : nat) (errors : list string),
    check_sequence i seq sample errors
    = Ok (errors ++ concat (imap (fun j => step_errors sample (i + j)) seq)).
Proof.
  intros H. induction seq as [|step seq IH]; intros i errors.
  - cbn. now rewrite app_nil_r.
  - cbn [check_sequence]. rewrite unresolved_in_spec by exact H.
    rewrite bind_ok, IH, imap_cons. cbn [concat]. rewrite Nat.add_0_r.
    assert (E : imap (fun j => step_errors sample (S i + j)) seq
                = imap ((fun j => step_errors sample (i + j)) ∘ S) seq).
    { apply imap_ext. intros j x _. cbn. now rewrite Nat.add_succ_r. }
    rewrite E.
    change (step_errors sample i step)
      with (if existsb (leaves_marker (body step)) sample
            then [unresolved_message i] else []).
    unfold unresolved_message.
    destruct (existsb (leaves_marker (body step)) sample).
    + now rewrite <- app_assoc.
    + reflexivity.
Qed.

(** Whenever the inner loop returns, it returns that [existsb]. *)
Lemma unresolved_in_returns (body : string) (sample : list Lead) (hit : bool) :
  unresolved_in body sample = Ok hit ->
  hit = existsb (leaves_marker body) sample.
Proof.
  revert hit. induction sample as [|lead sample IH]; intros hit.
  - now intros [= <-].
  - cbn [unresolved_in existsb]. unfold leaves_marker at 1.
    destruct (personalize body lead) as [out|e]; [|discriminate].
    rewrite bind_ok. destruct (contains "{{" out).
    + now intros [= <-].
    + apply IH.
Qed.

Lemma check_sequence_returns (sample : list Lead) :
  forall (seq : list EmailTemplate) (i : nat) (errors result : list string),
    check_sequence i seq sample errors = Ok result ->
    result = errors ++ concat (imap (fun j => step_errors sample (i + j)) seq).
Proof.
  induction seq as [|step seq IH]; intros i errors result.
  - cbn. intros [= <-]. now rewrite app_nil_r.
  - cbn [check_sequence].
    destruct (unresolved_in (body step) sample) as [hit|e] eqn:U; [|discriminate].
    apply unresolved_in_returns in U. rewrite bind_ok. intros R.
    apply IH in R. rewrite R, imap_cons. cbn [concat]. rewrite Nat.add_0_r.
    assert (E : imap (fun j => step_errors sample (S i + j)) seq
                = imap ((fun j => step_errors sample (i + j)) ∘ S) seq).
    { apply imap_ext. intros j x _. cbn. now rewrite Nat.add_succ_r. }
    rewrite E.
    change (step_errors sample i step)
      with (if existsb (leaves_marker (body step)) sample
            then [unresolved_message i] else []).
    unfold unresolved_message. rewrite <- U.
    destruct hit.
    + now rewrite <- app_assoc.
    + reflexivity.
Qed.

Lemma validate_spec_unfold (c : Campaign) :
  validate c
  = check_sequence 0 (sequence c) (take 5 (leads c))
      ((if bool_decide (leads c = []) then ["No leads loaded"] else [])
       ++ (if bool_decide (sequence c = []) then ["No emails in sequence"] else [])
       ++ (if bool_decide (mailboxes c = []) then ["No mailboxes configured"] else [])).
Proof.
  unfold validate. destruct (leads c), (sequence c), (mailboxes c); reflexivity.
Qed.

(** C6 as stated fails: not every campaign gets a list of errors. A row
    shorter than the header leaves [None] in a typed field of the lead
    [_load_leads] builds, and [validate] on the campaign, a step added,
    raises [TypeError] where the checks of the claim give the empty list. *)
Lemma C6_short_row_raises :
  exists c,
    __init__ {[ "leads.csv" := Rows [["email"; "first_name"]; ["bob@w.io"]] ]}
             Samples.t0 Samples.t0 "Q1 Outreach" (Some "leads.csv")
             (Some ["sales@acme.io"]) 50 = Ok c
    /\ map first_name (leads c) = [PNone]
    /\ validate (add_email c "Quick question" "Hi there, a word?" 0) = Raise TypeError
    /\ (forall errors,
          validate (add_email c "Quick question" "Hi there, a word?" 0) <> Ok errors)
    /\ validate_spec (add_email c "Quick question" "Hi there, a word?" 0) = [].
Proof.
  eexists. split.
  { unfold __init__, _load_leads. rewrite lookup_singleton_eq. reflexivity. }
  split; [reflexivity|]. split; [reflexivity|]. split; [discriminate | reflexivity].
Qed.

(** C6, amended: on every campaign whose first five leads carry strings in
    their three typed fields, as the [Lead] dataclass declares them,
    [validate] returns the errors of the four checks, none skipped, in the
    order leads, sequence, mailboxes, then one error at most per step of the
    sequence, emitted when one of the first five leads leaves a marker in
    the rendered body; on any campaign, whenever it returns, it returns
    that list; and with no lead at all it returns a list that holds
    [No leads loaded], whatever the other fields are. *)
Theorem C6_validate_accumulates (c : Campaign) :
  (forall errors, validate c = Ok errors -> errors = validate_spec c)
  /\ (forallb lead_typed (take 5 (leads c)) = true ->
      validate c = Ok (validate_spec c))
  /\ (leads c = [] ->
      exists rest, validate c = Ok ("No leads loaded" :: rest)).
Proof.
  assert (T : forallb lead_typed (take 5 (leads c)) = true ->
              validate c = Ok (validate_spec c)).
  { intros H. rewrite validate_spec_unfold, check_sequence_spec by exact H.
    unfold validate_spec. now rewrite <- !app_assoc. }
  split; [|split; [exact T|]].
  - intros errors V. rewrite validate_spec_unfold in V.
    apply check_sequence_returns in V. rewrite V.
    unfold validate_spec. now rewrite <- !app_assoc.
  - intros E. rewrite T by now rewrite E.
    unfold validate_spec. rewrite E. cbn. eauto.
Qed.

Lemma C6_validate_accumulates_witness :
  forallb lead_typed (take 5 (leads Samples.sloppy)) = true
  /\ validate_spec Samples.sloppy
     = ["No mailboxes configured"; "Email 2 has unresolved variables"]
  /\ validate Samples.sloppy = Ok (validate_spec Samples.sloppy).
Proof.
  split; [reflexivity|]. split; [reflexivity|].
  apply (C6_validate_accumulates Samples.sloppy). reflexivity.
Defined.

End Validator.

(** ** Properties of the campaign state machine *)

Section StateMachine.

(** C4: when [validate] returns a non-empty list, [start] returns without
    raising, its result carries that list, and the campaign (so its
    [status] and [started_at], unset if it was unset) and the files are
    what they were. *)
Theorem C4_start_refused (now : datetime) (c : Campaign)
    (files : campaign_files) (errors : list string) :
  validate c = Ok errors -> errors <> [] ->
  exists c' files',
    start now c files = Ok (c', files', StartError errors)
    /\ status c' = status c
    /\ started_at c' = started_at c
    /\ (started_at c = None -> started_at c' = None)
    /\ c' = c /\ files' = files.
Proof.
  intros V N. exists c, files. unfold start. rewrite V. cbn.
  destruct errors as [|e errors]; [now destruct N|].
  now repeat split.
Qed.

Lemma C4_start_refused_witness :
  validate Samples.unready = Ok ["No leads loaded"]
  /\ exists c' files',
    start Samples.t1 Samples.unready ∅ = Ok (c', files', StartError ["No leads loaded"])
    /\ status c' = status Samples.unready
    /\ started_at c' = started_at Samples.unready
    /\ (started_at Samples.unready = None -> started_at c' = None)
    /\ c' = Samples.unready /\ files' = ∅.
Proof.
  split; [reflexivity|].
  apply (C4_start_refused Samples.t1 Samples.unready ∅ ["No leads loaded"]).
  - reflexivity.
  - discriminate.
Defined.

(** C1 as stated fails: a second successful [start], here after a pause,
    writes its own clock reading over the one of the first start. *)
Lemma C1_second_start_overwrites :
  exists c1 f1 r1 c3 f3 r3,
    start Samples.t1 Samples.ready ∅ = Ok (c1, f1, r1)
    /\ started_at c1 = Some Samples.t1
    /\ start Samples.t2 (fst (pause c1 f1)) (snd (pause c1 f1)) = Ok (c3, f3, r3)
    /\ started_at c3 = Some Samples.t2
    /\ started_at c3 <> started_at c1.
Proof.
  do 6 eexists. split; [reflexivity|]. split; [reflexivity|].
  split; [reflexivity|]. split; [reflexivity|]. discriminate.
Qed.

(** C1, amended: on every campaign, in whatever state and with whatever
    files, a [start] that returns has set [started_at] to its own clock
    reading when it succeeded and has left it as it was when it was
    refused; it succeeds whenever [validate] returns no error, whether or
    not [started_at] was set before; and [pause] and [resume] never change
    [started_at], alone or one after the other. *)
Theorem C1_started_at (now : datetime) (c : Campaign) (files : campaign_files) :
  (forall c' files' r,
      start now c files = Ok (c', files', r) ->
      started_at c' = match r with
                      | Started _ => Some now
                      | StartError _ => started_at c
                      end)
  /\ (validate c = Ok [] ->
      exists c' files',
        start now c files = Ok (c', files', Started (id c))
        /\ started_at c' = Some now)
  /\ started_at (fst (pause c files)) = started_at c
  /\ started_at (fst (resume c files)) = started_at c
  /\ started_at (fst (resume (fst (pause c files)) (snd (pause c files))))
     = started_at c
  /\ started_at (fst (pause (fst (resume c files)) (snd (resume c files))))
     = started_at c.
Proof.
  split; [|split; [|now repeat split]].
  - intros c' files' r. unfold start.
    destruct (validate c) as [errors|e]; [|discriminate].
    cbn. now destruct errors as [|e errors]; intros [= <- <- <-].
  - intros V. unfold start. rewrite V. cbn. now do 2 eexists.
Qed.

Lemma C1_started_at_witness :
  validate Samples.running = Ok []
  /\ started_at Samples.running = Some Samples.t1
  /\ (exists c' files',
        start Samples.t2 Samples.running ∅ = Ok (c', files', Started (id Samples.running))
        /\ started_at c' = Some Samples.t2)
  /\ started_at (fst (resume Samples.running ∅)) = Some Samples.t1.
Proof.
  split; [reflexivity|]. split; [reflexivity|].
  pose proof (C1_started_at Samples.t2 Samples.running ∅) as (_ & S & _ & R & _).
  split; [exact (S eq_refl) | exact R].
Defined.

End StateMachine.

(** ** Properties of persistence *)

Section Persistence.

Lemma load_saved (now_id now_created : datetime) (files : campaign_files)
    (campaign_id : string) (state : State) :
  files !! file_name campaign_id = Some state ->
  load now_id now_created files campaign_id
  = Ok (mkCampaign (st_id state) (st_name state) None (st_mailboxes state)
                   (st_daily_limit state) (st_sequence state) (st_status state)
                   now_created [] None).
Proof. intros H. unfold load. now rewrite H. Qed.

Lemma lookup_save (c : Campaign) (files : campaign_files) :
  _save c files !! file_name (id c) = Some (state_of c).
Proof. unfold _save. apply lookup_insert_eq. Qed.

(** C5: for every campaign, [load] of the id after [_save] returns a
    campaign with the same sequence (same steps, same order, same fields),
    status, mailboxes and daily limit, and with no lead. *)
Theorem C5_save_load_round_trip (now_id now_created : datetime) (c : Campaign)
    (files : campaign_files) :
  exists c',
    load now_id now_created (_save c files) (id c) = Ok c'
    /\ sequence c' = sequence c
    /\ status c' = status c
    /\ mailboxes c' = mailboxes c
    /\ daily_limit c' = daily_limit c
    /\ leads c' = [].
Proof.
  eexists. rewrite (load_saved _ _ _ _ _ (lookup_save c files)).
  now repeat split.
Qed.

(** C10: [load] takes [id], [name], [status], [mailboxes], [daily_limit]
    and [sequence] from the persisted document and nothing else: whatever
    [started_at] and [created_at] the document holds, the loaded campaign
    has no [started_at] and the [created_at] of its own construction. *)
Theorem C10_load_restores_six_fields (now_id now_created : datetime)
    (files : campaign_files) (campaign_id : string) (state : State) :
  files !! file_name campaign_id = Some state ->
  exists c',
    load now_id now_created files campaign_id = Ok c'
    /\ id c' = st_id state /\ name c' = st_name state
    /\ status c' = st_status state /\ mailboxes c' = st_mailboxes state
    /\ daily_limit c' = st_daily_limit state /\ sequence c' = st_sequence state
    /\ started_at c' = None
    /\ created_at c' = now_created
    /\ leads c' = [] /\ leads_csv c' = None.
Proof.
  intros H. eexists. rewrite (load_saved _ _ _ _ _ H). now repeat split.
Qed.

Lemma C10_load_restores_six_fields_witness :
  st_started_at (state_of Samples.running) = Some Samples.t1
  /\ st_created_at (state_of Samples.running) = Samples.t0
  /\ exists c',
    load Samples.t2 Samples.t2 (_save Samples.running ∅) (id Samples.running) = Ok c'
    /\ id c' = id Samples.running /\ name c' = name Samples.running
    /\ status c' = status Samples.running /\ mailboxes c' = mailboxes Samples.running
    /\ daily_limit c' = daily_limit Samples.running
    /\ sequence c' = sequence Samples.running
    /\ started_at c' = None
    /\ created_at c' = Samples.t2
    /\ leads c' = [] /\ leads_csv c' = None.
Proof.
  split; [reflexivity|]. split; [reflexivity|].
  apply (C10_load_restores_six_fields Samples.t2 Samples.t2
           (_save Samples.running ∅) (id Samples.running) (state_of Samples.running)).
  apply lookup_save.
Defined.

End Persistence.

(** ** Properties of the lead store *)

Section LeadStore.


Lemma set_leads_same (c : Campaign) : set_leads c (leads c) = c.
Proof. now destruct c. Qed.

Lemma load_rows (ds : list dict) :
  forall c : Campaign,
    fold_left (fun c row => set_leads c (leads c ++ [lead_of_row row])) ds c
    = set_leads c (leads c ++ map lead_of_row ds).
Proof.
  induction ds as [|row ds IH]; intros c.
  - cbn. now rewrite app_nil_r, set_leads_same.
  - cbn [fold_left map]. rewrite IH. cbn. now rewrite <- app_assoc.
Qed.



End LeadStore.

(** ** Properties of the warmup scheduler *)

Section Warmup.

Import WarmupAccount.

Lemma rev_default_schedule :
  rev DEFAULT_SCHEDULE
  = [mkWarmupSchedule 21 40 0.3; mkWarmupSchedule 14 40 0.4;
     mkWarmupSchedule 8 30 0.6; mkWarmupSchedule 7 15 0.8;
     mkWarmupSchedule 6 15 0.8; mkWarmupSchedule 5 15 0.8;
     mkWarmupSchedule 4 15 0.8; mkWarmupSchedule 3 5 1.0;
     mkWarmupSchedule 2 5 1.0; mkWarmupSchedule 1 5 1.0].
Proof. reflexivity. Qed.

Ltac split_on_day d :=
  repeat match goal with
         | |- context [(d >=? ?k)%Z] =>
             rewrite (Z.geb_leb d k); destruct (Z.leb_spec k d)
         end.

Ltac each_entry He :=
  cbn [In DEFAULT_SCHEDULE] in He;
  repeat (destruct He as [<-|He]; [cbn [day] in *; lia|]);
  destruct He.

(** C3: for every day [d >= 1], [get_schedule_for_day] returns an entry of
    the default schedule whose threshold is at most [d] and is the largest
    such threshold; below every threshold it returns the entry with the
    smallest threshold; days 1, 10, 21 and 100 give (5, 1.0), (30, 0.6),
    (40, 0.3) and (40, 0.3). *)
Theorem C3_schedule_for_day (d : Z) :
  (1 <= d)%Z ->
  (exists s, get_schedule_for_day d = Ok s
             /\ In s DEFAULT_SCHEDULE
             /\ (day s <= d)%Z
             /\ forall e, In e DEFAULT_SCHEDULE -> (day e <= d)%Z -> (day e <= day s)%Z)
  /\ (forall d', (forall e, In e DEFAULT_SCHEDULE -> (d' < day e)%Z) ->
                 exists s, get_schedule_for_day d' = Ok s
                           /\ In s DEFAULT_SCHEDULE
                           /\ forall e, In e DEFAULT_SCHEDULE -> (day s <= day e)%Z)
  /\ get_schedule_for_day 1 = Ok (mkWarmupSchedule 1 5 1.0)
  /\ get_schedule_for_day 10 = Ok (mkWarmupSchedule 8 30 0.6)
  /\ get_schedule_for_day 21 = Ok (mkWarmupSchedule 21 40 0.3)
  /\ get_schedule_for_day 100 = Ok (mkWarmupSchedule 21 40 0.3).
Proof.
  intros Hd. split; [|split; [|repeat split]].
  - unfold get_schedule_for_day. rewrite rev_default_schedule.
    cbn [find day]. split_on_day d;
      (eexists; split; [reflexivity|]; split; [cbn [In DEFAULT_SCHEDULE]; tauto|];
       split; [cbn [day]; lia|]; intros e He Hle; each_entry He).
  - intros d' Hlow.
    assert (d' < 1)%Z as Hd'.
    { apply (Hlow (mkWarmupSchedule 1 5 1.0)). cbn. tauto. }
    unfold get_schedule_for_day. rewrite rev_default_schedule.
    cbn [find day]. split_on_day d'; try lia.
    eexists. split; [reflexivity|]. split; [cbn [In DEFAULT_SCHEDULE]; tauto|].
    intros e He. each_entry He.
Qed.

Lemma C3_schedule_for_day_witness :
  (1 <= 17)%Z /\ get_schedule_for_day 17 = Ok (mkWarmupSchedule 14 40 0.4)
  /\ exists s, get_schedule_for_day 17 = Ok s /\ (day s <= 17)%Z.
Proof.
  split; [lia|]. split; [reflexivity|].
  destruct (C3_schedule_for_day 17 ltac:(lia)) as [(s & E & _ & L & _) _].
  exists s. split; assumption.
Defined.

(** C7: on an existing record, [update_metrics] adds [sent] and [received]
    to the two totals; when [inbox + spam > 0] the two rates become
    [inbox / (inbox + spam)] and [spam / (inbox + spam)], otherwise they
    keep their earlier values; so [inbox = 0, spam = 0] leaves them as they
    were and [inbox = 3, spam = 1] sets them to 0.75 and 0.25. The record
    is written back with the new metrics, which are also returned. *)
Theorem C7_update_metrics (files : warmup_files) (address : string)
    (sent received inbox spam : Z) (config : WarmupConfig) :
  files !! config_file address = Some config ->
  exists m,
    update_metrics files address sent received inbox spam
    = Ok (<[config_file address := set_metrics config m]> files, m)
    /\ total_sent m = (total_sent (metrics config) + sent)%Z
    /\ total_received m = (total_received (metrics config) + received)%Z
    /\ ((inbox + spam > 0)%Z ->
        inbox_rate m = (inject_Z inbox / inject_Z (inbox + spam))%Q
        /\ spam_rate m = (inject_Z spam / inject_Z (inbox + spam))%Q)
    /\ (~ (inbox + spam > 0)%Z ->
        inbox_rate m = inbox_rate (metrics config)
        /\ spam_rate m = spam_rate (metrics config))
    /\ (inbox = 0%Z -> spam = 0%Z ->
        inbox_rate m = inbox_rate (metrics config)
        /\ spam_rate m = spam_rate (metrics config))
    /\ (inbox = 3%Z -> spam = 1%Z ->
        (inbox_rate m == 0.75)%Q /\ (spam_rate m == 0.25)%Q).
Proof.
  intros H. unfold update_metrics. rewrite H. cbn [total_sent total_received
    inbox_rate spam_rate].
  destruct (Z.gtb_spec (inbox + spam) 0) as [pos|npos];
    (eexists; split; [reflexivity|]; cbn [total_sent total_received inbox_rate spam_rate];
     repeat split; try reflexivity; try lia; intros; subst; try lia;
     try reflexivity).
Qed.

Lemma C7_update_metrics_witness :
  exists m,
    update_metrics {[ config_file "john@acmeleads.com" := Samples.warm ]}
                   "john@acmeleads.com" 10 8 3 1
    = Ok (<[config_file "john@acmeleads.com" := set_metrics Samples.warm m]>
            {[ config_file "john@acmeleads.com" := Samples.warm ]}, m)
    /\ total_sent m = 22%Z /\ total_received m = 17%Z
    /\ (inbox_rate m == 0.75)%Q /\ (spam_rate m == 0.25)%Q.
Proof.
  destruct (C7_update_metrics {[ config_file "john@acmeleads.com" := Samples.warm ]}
              "john@acmeleads.com" 10 8 3 1 Samples.warm)
    as (m & E & S & R & _ & _ & _ & Q); [apply lookup_singleton_eq|].
  exists m. split; [exact E|]. split; [exact S|]. split; [exact R|].
  apply Q; reflexivity.
Defined.

End Warmup.

(** ** Worked examples *)

Section Examples.

Example replace_leftmost : replace "aaa" "aa" "b" = "ba".
Proof. reflexivity. Qed.

Example replace_empty_old : replace "abc" EmptyString "-" = "-a-b-c-".
Proof. reflexivity. Qed.

Example repr_list_quotes :
  repr_list ["a"; String squote "b"; String bslash "c"]
  = "['a', " +:+ String dquote (String squote "b") +:+ String dquote ", '"
    +:+ String bslash (String bslash "c']").
Proof. reflexivity. Qed.

Example campaign_id_format :
  "campaign_" +:+ strftime_id Samples.t1 = "campaign_20260106_083000".
Proof. reflexivity. Qed.

(** The scenario of the specification: a source without [company_name]
    column gives every lead an empty company name. *)
Example load_without_company :
  map (fun l => (first_name l, company_name l))
      (map lead_of_row
           (DictReader [["first_name"; "org"]; ["alice"; "Acme"]; []; ["bob"; "Widgets"]]))
  = [(PStr "alice", PStr EmptyString); (PStr "bob", PStr EmptyString)].
Proof. reflexivity. Qed.

Example render_without_company :
  personalize "Hi {{first_name}} from {{company_name}}"
    (lead_of_row (row_dict ["first_name"; "org"] ["alice"; "Acme"]))
  = Ok "Hi alice from ".
Proof. reflexivity. Qed.

(** A placeholder no key matches stays in the output. *)
Example render_leaves_unknown :
  personalize "Hi {{nickname}}" Samples.alice = Ok "Hi {{nickname}}".
Proof. reflexivity. Qed.

(** A row shorter than the header stores [None] in the typed field, and
    rendering against that lead raises. *)
Example short_row_raises :
  first_name (lead_of_row (row_dict ["email"; "first_name"] ["bob@w.io"])) = PNone
  /\ personalize "Hi" (lead_of_row (row_dict ["email"; "first_name"] ["bob@w.io"]))
     = Raise TypeError.
Proof. split; reflexivity. Qed.

Example validate_raises_on_short_row :
  validate (set_leads Samples.ready
              [lead_of_row (row_dict ["email"; "first_name"] ["bob@w.io"])])
  = Raise TypeError.
Proof. reflexivity. Qed.

(** A row longer than the header keeps its surplus cells under [None]. *)
Example long_row_restkey :
  row_dict ["email"] ["bob@w.io"; "x"; "y"]
  = [(Some "email", PStr "bob@w.io"); (None, PList ["x"; "y"])].
Proof. reflexivity. Qed.

End Examples.

(** ** More on the template renderer *)

Section RenderLaws.

Lemma contains_prefix (sub s : string) :
  String.prefix sub s = true -> contains sub s = true.
Proof. intros H. destruct s; cbn [contains]; now rewrite H. Qed.

Lemma prefix_append_l (sub a b : string) :
  String.prefix sub a = true -> String.prefix sub (a +:+ b) = true.
Proof.
  revert a. induction sub as [|x sub IH]; intros a H.
  - now destruct (a +:+ b).
  - destruct a as [|y a]; [discriminate|].
    rewrite append_cons. destruct (ascii_dec x y) as [->|ne].
    + rewrite prefix_head_eq in H |- *. now apply IH.
    + now rewrite prefix_head_ne in H.
Qed.

Lemma contains_append_l (sub a b : string) :
  contains sub a = true -> contains sub (a +:+ b) = true.
Proof.
  induction a as [|x a IH]; intros H.
  - cbn in H. rewrite orb_false_r in H. rewrite append_nil_l.
    apply contains_prefix. now apply (prefix_append_l sub EmptyString b).
  - cbn [contains] in H. apply orb_prop in H as [H|H].
    + apply contains_prefix. now apply prefix_append_l.
    + rewrite append_cons. cbn [contains]. rewrite IH by exact H.
      apply orb_true_r.
Qed.

Lemma contains_append_r (sub a b : string) :
  contains sub b = true -> contains sub (a +:+ b) = true.
Proof.
  intros H. induction a as [|x a IH]; [exact H|].
  rewrite append_cons. cbn [contains]. rewrite IH. apply orb_true_r.
Qed.














(** Text without the first character of the pattern is returned as it is. *)
Lemma replace_no_first_char (s new : string) (a : ascii) (o : string) :
  no_char a s = true -> replace s (String a o) new = s.
Proof.
  intros H. rewrite replace_nonempty.
  rewrite <- (append_nil_r s) at 1.
  rewrite (replace_from_pass (String a o) new a o s EmptyString eq_refl H).
  cbn. apply append_nil_r.
Qed.

Lemma replace_items_no_brace (d : dict) (t : string) :
  no_char "{" t = true -> replace_items d t = t.
Proof.
  intros H. induction d as [|[k v] d IH]; [reflexivity|].
  unfold replace_items. cbn [fold_left].
  change ("{{" +:+ format_key k +:+ "}}") with (placeholder (format_key k)).
  rewrite placeholder_cons, replace_no_first_char by exact H. exact IH.
Qed.

Lemma lead_typed_inv (lead : Lead) :
  lead_typed lead = true ->
  exists em fn cn, lead = mkLead (PStr em) (PStr fn) (PStr cn) (extra lead).
Proof.
  destruct lead as [[em| |] [fn| |] [cn| |] ex]; try discriminate.
  intros _. now exists em, fn, cn.
Qed.

(** X3: a template without opening brace is returned unchanged for every
    lead whose typed fields are strings, whatever the values and whatever
    [extra] holds. *)
Theorem personalize_plain_text (template : string) (lead : Lead) :
  no_char "{" template = true ->
  lead_typed lead = true ->
  personalize template lead = Ok template.
Proof.
  intros H T. apply lead_typed_inv in T as (em & fn & cn & ->).
  rewrite personalize_str.
  change "{{first_name}}" with (String "{" "{first_name}}").
  change "{{company_name}}" with (String "{" "{company_name}}").
  change "{{email}}" with (String "{" "{email}}").
  rewrite (replace_no_first_char template fn _ _ H).
  rewrite (replace_no_first_char template cn _ _ H).
  rewrite (replace_no_first_char template em _ _ H).
  now rewrite replace_items_no_brace.
Qed.

Lemma personalize_plain_text_witness :
  personalize "Closing the loop." (Samples.shadow "{{Zed}}") = Ok "Closing the loop.".
Proof.
  apply (personalize_plain_text "Closing the loop." (Samples.shadow "{{Zed}}"));
    reflexivity.
Defined.

(** X4: [personalize] raises exactly when one of the three typed fields is
    not a string, and the exception is then [TypeError]; no key and no value
    of [extra] makes it raise. *)
Theorem personalize_raises_iff_untyped (template : string) (lead : Lead) :
  (lead_typed lead = true -> exists out, personalize template lead = Ok out)
  /\ (lead_typed lead = false -> personalize template lead = Raise TypeError).
Proof.
  split.
  - intros T. apply lead_typed_inv in T as (em & fn & cn & ->).
    rewrite personalize_str. eauto.
  - destruct lead as [[em| |] [fn| |] [cn| |] ex]; try discriminate;
      intros _; reflexivity.
Qed.

Lemma personalize_raises_iff_untyped_witness :
  personalize "Hi {{first_name}}"
    (mkLead (PStr "bob@w.io") PNone (PStr "Widgets") (Some [(None, PList ["x"])]))
  = Raise TypeError.
Proof.
  apply (personalize_raises_iff_untyped "Hi {{first_name}}"
           (mkLead (PStr "bob@w.io") PNone (PStr "Widgets") (Some [(None, PList ["x"])]))).
  reflexivity.
Defined.

End RenderLaws.

(** ** More on the validator *)

Section ValidatorLaws.

(** X5: [validate] never looks beyond the fifth lead: leads added after
    five or more existing ones, whatever they hold, leave its result as it
    was (be it a list or an exception). *)
Theorem validate_ignores_later_leads (c : Campaign) (more : list Lead) :
  (5 <= length (leads c))%nat ->
  validate (set_leads c (leads c ++ more)) = validate c.
Proof.
  intros H. unfold validate. cbn [leads sequence mailboxes set_leads].
  rewrite take_app_le by exact H.
  destruct (leads c) as [|l ls]; [cbn in H; lia|]. reflexivity.
Qed.

Lemma validate_ignores_later_leads_witness :
  (5 <= length (leads MoreSamples.five_leads))%nat
  /\ validate (set_leads MoreSamples.five_leads
                 (leads MoreSamples.five_leads
                  ++ [Samples.braces; MoreSamples.untyped]))
     = validate MoreSamples.five_leads.
Proof.
  split; [cbn; lia|].
  apply (validate_ignores_later_leads MoreSamples.five_leads
           [Samples.braces; MoreSamples.untyped]).
  cbn. lia.
Defined.

Lemma check_sequence_bodies (sample : list Lead) (seq1 : list EmailTemplate) :
  forall (seq2 : list EmailTemplate) (i : nat) (errors : list string),
    map body seq1 = map body seq2 ->
    check_sequence i seq1 sample errors = check_sequence i seq2 sample errors.
Proof.
  induction seq1 as [|e1 seq1 IH]; intros [|e2 seq2] i errors E;
    try discriminate; [reflexivity|].
  cbn [map] in E. injection E as Eb E.
  cbn [check_sequence]. rewrite Eb.
  destruct (unresolved_in (body e2) sample) as [hit|e]; [|reflexivity].
  rewrite !bind_ok. now apply IH.
Qed.

(** X6: [validate] reads the bodies of the sequence only: two sequences
    with the same bodies in the same order give the same result, so a
    placeholder left in a subject is never reported. *)
Theorem validate_reads_bodies_only (c : Campaign) (seq1 seq2 : list EmailTemplate) :
  map body seq1 = map body seq2 ->
  validate (set_sequence c seq1) = validate (set_sequence c seq2).
Proof.
  intros E. unfold validate. cbn [leads sequence mailboxes set_sequence].
  rewrite (check_sequence_bodies _ seq1 seq2) by exact E.
  destruct seq1, seq2; try discriminate; reflexivity.
Qed.

Lemma validate_reads_bodies_only_witness :
  validate (set_sequence Samples.ready
              [mkEmailTemplate "For {{nickname}}" "Hi {{first_name}}, a word?" 2])
  = Ok [].
Proof.
  rewrite (validate_reads_bodies_only Samples.ready
             [mkEmailTemplate "For {{nickname}}" "Hi {{first_name}}, a word?" 2]
             (sequence Samples.ready)); reflexivity.
Defined.

Lemma check_sequence_keeps (P : string -> Prop) (sample : list Lead) :
  (forall i, P (unresolved_message i)) ->
  forall (seq : list EmailTemplate) (i : nat) (errors result : list string),
    Forall P errors ->
    check_sequence i seq sample errors = Ok result ->
    Forall P result.
Proof.
  intros HP. induction seq as [|e seq IH]; intros i errors result HF.
  - cbn. now intros [= <-].
  - cbn [check_sequence].
    destruct (unresolved_in (body e) sample) as [hit|x]; [|discriminate].
    rewrite bind_ok. apply IH. destruct hit; [|exact HF].
    apply Forall_app. split; [exact HF|]. constructor; [apply HP | constructor].
Qed.

(** X7: after [add_email], whatever [validate] returns does not hold
    [No emails in sequence]. *)
Theorem add_email_fills_sequence (c : Campaign) (subject body : string)
    (delay_days : Z) (errors : list string) :
  validate (add_email c subject body delay_days) = Ok errors ->
  ~ In "No emails in sequence" errors.
Proof.
  unfold validate, add_email. cbn [leads sequence mailboxes set_sequence].
  destruct (sequence c ++ [mkEmailTemplate subject body delay_days]) as [|e seq] eqn:E.
  { now destruct (sequence c). }
  intros V I.
  apply (check_sequence_keeps (fun m => m <> "No emails in sequence")) in V.
  - rewrite List.Forall_forall in V. now apply (V _ I).
  - intros i. unfold unresolved_message. discriminate.
  - destruct (leads c), (mailboxes c); cbn; repeat constructor; discriminate.
Qed.

Lemma add_email_fills_sequence_witness :
  validate (add_email Samples.unready "Following up" "Any thoughts?" 3)
  = Ok ["No leads loaded"]
  /\ ~ In "No emails in sequence" ["No leads loaded"].
Proof.
  split; [reflexivity|].
  apply (add_email_fills_sequence Samples.unready "Following up" "Any thoughts?" 3).
  reflexivity.
Defined.

End ValidatorLaws.

(** ** More on the state machine, persistence and the command line *)

Section LifecycleLaws.

Import CampaignCli.




Lemma validate_no_leads (c : Campaign) :
  leads c = [] ->
  exists rest, validate c = Ok ("No leads loaded" :: rest).
Proof.
  intros E. rewrite validate_spec_unfold, E.
  rewrite check_sequence_spec by reflexivity.
  cbn. eauto.
Qed.

(** X8: when [validate] returns no error, [start] makes the campaign
    active, stamps it with its clock reading and persists it; reloading the
    id then gives an active campaign with the same name, mailboxes, limit
    and sequence, but without leads and without [started_at]. *)
Theorem start_then_load (now t1 t2 : datetime) (c : Campaign) (files : campaign_files) :
  validate c = Ok [] ->
  exists c' files',
    start now c files = Ok (c', files', Started (id c))
    /\ status c' = "active" /\ started_at c' = Some now /\ leads c' = leads c
    /\ files' !! file_name (id c) = Some (state_of c')
    /\ load t1 t2 files' (id c)
       = Ok (mkCampaign (id c) (name c) None (mailboxes c) (daily_limit c)
                        (sequence c) "active" t2 [] None).
Proof.
  intros V. unfold start. rewrite V, bind_ok.
  exists (set_started_at (set_status c "active") now).
  exists (_save (set_started_at (set_status c "active") now) files).
  pose proof (lookup_save (set_started_at (set_status c "active") now) files) as L.
  split; [reflexivity|].
  split; [reflexivity|]. split; [reflexivity|]. split; [reflexivity|].
  split; [exact L|].
  now rewrite (load_saved _ _ _ _ _ L).
Qed.

Lemma start_then_load_witness :
  validate Samples.ready = Ok []
  /\ exists c' files',
    start Samples.t1 Samples.ready ∅ = Ok (c', files', Started (id Samples.ready))
    /\ status c' = "active" /\ started_at c' = Some Samples.t1
    /\ leads c' = leads Samples.ready
    /\ files' !! file_name (id Samples.ready) = Some (state_of c')
    /\ load Samples.t2 Samples.t2 files' (id Samples.ready)
       = Ok (mkCampaign (id Samples.ready) (name Samples.ready) None
                        (mailboxes Samples.ready) (daily_limit Samples.ready)
                        (sequence Samples.ready) "active" Samples.t2 [] None).
Proof.
  split; [reflexivity|].
  apply (start_then_load Samples.t1 Samples.t2 Samples.t2 Samples.ready ∅).
  reflexivity.
Defined.



(** X10: [pause] and [resume] overwrite each other completely: resuming a
    paused campaign gives the campaign and the files that resuming it
    directly gives, and likewise for pausing a resumed one. *)
Theorem resume_after_pause (c : Campaign) (files : campaign_files) :
  resume (fst (pause c files)) (snd (pause c files)) = resume c files
  /\ pause (fst (resume c files)) (snd (resume c files)) = pause c files.
Proof.
  unfold resume, pause, _save. cbn [fst snd id set_status].
  split; f_equal; apply insert_insert_eq.
Qed.

Lemma set_leads_status (c : Campaign) (l : list Lead) :
  status (set_leads c l) = status c.
Proof. reflexivity. Qed.

Lemma init_is_draft (csv : csv_files) (now_id now_created : datetime)
    (name : string) (leads_csv : option string) (boxes : option (list string))
    (limit : Z) (c : Campaign) :
  __init__ csv now_id now_created name leads_csv boxes limit = Ok c ->
  status c = "draft" /\ started_at c = None
  /\ id c = "campaign_" +:+ strftime_id now_id
  /\ SendCampaign.name c = name.
Proof.
  unfold __init__. destruct leads_csv as [[|x path]|].
  - now intros [= <-].
  - unfold _load_leads.
    destruct (csv !! String x path) as [[rows|e]|]; [|discriminate..].
    rewrite load_rows. now intros [= <-].
  - now intros [= <-].
Qed.

Lemma add_entries_keep (entries : list sequence_entry) :
  forall c : Campaign,
    status (fold_left add_entry entries c) = status c
    /\ id (fold_left add_entry entries c) = id c
    /\ SendCampaign.name (fold_left add_entry entries c) = SendCampaign.name c.
Proof.
  induction entries as [|e entries IH]; intros c; [now repeat split|].
  cbn [fold_left]. destruct (IH (add_entry c e)) as (-> & -> & ->).
  now repeat split.
Qed.

(** X11: no action of the command line writes anything but a draft: when
    [main] completes, every document on file was there before or has status
    [draft]. *)
Theorem cli_writes_only_drafts (now_id now_created now : datetime) (ins : inputs)
    (files files' : campaign_files) (a : args) (printed : option start_result) :
  main now_id now_created now ins files a = Finished files' printed ->
  forall (key : string) (state : State),
    files' !! key = Some state ->
    files !! key = Some state \/ st_status state = "draft".
Proof.
  unfold main. destruct (arg_action a).
  - unfold main_create. destruct (given (arg_name a)) as [name|]; [|discriminate].
    destruct (__init__ _ _ _ _ _ _ _) as [c0|e] eqn:I; [|discriminate].
    apply init_is_draft in I as (D0 & _).
    assert (W : forall c, status c = "draft" ->
                Finished (_save c files) None = Finished files' printed ->
                forall key state, files' !! key = Some state ->
                  files !! key = Some state \/ st_status state = "draft").
    { intros c D [= <- _] key state. unfold _save.
      destruct (decide (file_name (id c) = key)) as [<-|ne].
      - rewrite lookup_insert_eq. intros [= <-]. now right.
      - rewrite lookup_insert_ne by exact ne. now left. }
    destruct (given (arg_sequence a)) as [sp|].
    + destruct (in_sequences ins !! sp) as [entries|]; [|discriminate].
      destruct (add_entries_keep entries c0) as (D1 & _). rewrite D0 in D1.
      destruct (given (arg_mailboxes a)) as [mp|].
      * destruct (in_mailboxes ins !! mp) as [boxes|]; [|discriminate].
        apply W. exact D1.
      * apply W. exact D1.
    + destruct (given (arg_mailboxes a)) as [mp|].
      * destruct (in_mailboxes ins !! mp) as [boxes|]; [|discriminate].
        apply W. exact D0.
      * apply W. exact D0.
  - unfold main_start. destruct (given (arg_campaign_id a)) as [cid|]; [|discriminate].
    destruct (load _ _ _ _) as [c|e] eqn:L; [|discriminate].
    unfold load in L. destruct (files !! file_name cid) as [st|]; [|discriminate].
    cbn in L. injection L as <-. unfold start.
    match goal with
    | |- context [validate ?c] =>
        destruct (validate_no_leads c eq_refl) as [rest ->]
    end.
    rewrite bind_ok. intros [= <- _] key state H. now left.
  - intros [= <- _] key state H. now left.
  - intros [= <- _] key state H. now left.
  - unfold main_metrics. destruct (given (arg_campaign_id a)); [|discriminate].
    intros [= <- _] key state H. now left.
Qed.

Lemma cli_writes_only_drafts_witness :
  exists files',
    main Samples.t0 Samples.t0 Samples.t0 (mkInputs ∅ ∅ ∅) ∅
         (mkArgs (Some "Q2 Outreach") None None None None Create)
    = Finished files' None
    /\ forall (key : string) (state : State),
        files' !! key = Some state ->
        (∅ : campaign_files) !! key = Some state \/ st_status state = "draft".
Proof.
  eexists. split; [reflexivity|].
  apply (cli_writes_only_drafts Samples.t0 Samples.t0 Samples.t0 (mkInputs ∅ ∅ ∅) ∅ _
           (mkArgs (Some "Q2 Outreach") None None None None Create) None).
  reflexivity.
Defined.

End LifecycleLaws.

(** ** More on identifiers and on the lead store *)

Section StoreLaws.

(** X12: the id is the creation time down to the second, so two campaigns
    constructed within one second share it whatever their names, and saving
    the second replaces the document of the first: loading the id gives the
    second campaign. *)
Theorem same_second_same_id (csv : csv_files) (ta tb created_a created_b : datetime)
    (name_a name_b : string) (leads_a leads_b : option string)
    (boxes_a boxes_b : option (list string)) (limit_a limit_b : Z)
    (a b : Campaign) (files : campaign_files) (t1 t2 : datetime) :
  same_second ta tb ->
  __init__ csv ta created_a name_a leads_a boxes_a limit_a = Ok a ->
  __init__ csv tb created_b name_b leads_b boxes_b limit_b = Ok b ->
  id a = id b
  /\ load t1 t2 (_save b (_save a files)) (id a)
     = Ok (mkCampaign (id b) name_b None (mailboxes b) (daily_limit b)
                      (sequence b) "draft" t2 [] None).
Proof.
  intros (Ey & Emo & Ed & Eh & Emi & Es) Ia Ib.
  apply init_is_draft in Ia as (_ & _ & Ida & _).
  apply init_is_draft in Ib as (Db & _ & Idb & Nb).
  assert (E : id a = id b).
  { rewrite Ida, Idb. unfold strftime_id. now rewrite Ey, Emo, Ed, Eh, Emi, Es. }
  split; [exact E|].
  rewrite E, (load_saved _ _ _ _ _ (lookup_save b _)).
  cbn [state_of st_id st_name st_mailboxes st_daily_limit st_sequence st_status].
  now rewrite Nb, Db.
Qed.

Lemma same_second_same_id_witness :
  exists a b,
    __init__ ∅ (mkDatetime 2026 1 5 9 0 0 120) Samples.t0 "Q1 Outreach" None None 50 = Ok a
    /\ __init__ ∅ (mkDatetime 2026 1 5 9 0 0 870) Samples.t0 "Winback" None None 20 = Ok b
    /\ id a = id b
    /\ load Samples.t2 Samples.t2 (_save b (_save a ∅)) (id a)
       = Ok (mkCampaign (id b) "Winback" None (mailboxes b) (daily_limit b)
                        (sequence b) "draft" Samples.t2 [] None).
Proof.
  do 2 eexists. split; [reflexivity|]. split; [reflexivity|].
  apply (same_second_same_id ∅ (mkDatetime 2026 1 5 9 0 0 120)
           (mkDatetime 2026 1 5 9 0 0 870) Samples.t0 Samples.t0
           "Q1 Outreach" "Winback" None None None None 50 20).
  - now repeat split.
  - reflexivity.
  - reflexivity.
Defined.



Lemma pykey_eqb_eq (a b : pykey) : pykey_eqb a b = true <-> a = b.
Proof.
  destruct a as [x|], b as [y|]; cbn; try (split; congruence).
  rewrite String.eqb_eq. split; congruence.
Qed.

Lemma pykey_eqb_neq (a b : pykey) : pykey_eqb a b = false <-> a <> b.
Proof.
  rewrite <- pykey_eqb_eq. destruct (pykey_eqb a b); split; congruence.
Qed.

Lemma dict_get_set_same (d : dict) (k : pykey) (v dflt : pyval) :
  dict_get (dict_set d k v) k dflt = v.
Proof.
  induction d as [|[k0 v0] d IH]; cbn [dict_set dict_get].
  - now rewrite (proj2 (pykey_eqb_eq k k) eq_refl).
  - destruct (pykey_eqb k0 k) eqn:E; cbn [dict_get]; rewrite E; [reflexivity | exact IH].
Qed.

Lemma dict_get_set_other (d : dict) (k k' : pykey) (v dflt : pyval) :
  k <> k' -> dict_get (dict_set d k v) k' dflt = dict_get d k' dflt.
Proof.
  intros ne. apply pykey_eqb_neq in ne.
  induction d as [|[k0 v0] d IH]; cbn [dict_set dict_get].
  - now rewrite ne.
  - destruct (pykey_eqb k0 k) eqn:E; cbn [dict_get].
    + apply pykey_eqb_eq in E as ->. now rewrite ne.
    + now rewrite IH.
Qed.

Lemma zip_dict_other (k : string) (dflt : pyval) (ks : list string) :
  forall (d : dict) (vs : list string),
    ~ In k ks ->
    dict_get (zip_dict d ks vs) (Some k) dflt = dict_get d (Some k) dflt.
Proof.
  induction ks as [|k0 ks IH]; intros d vs N; [reflexivity|].
  destruct vs as [|v0 vs]; [reflexivity|]. cbn [zip_dict].
  rewrite IH by (intros I; apply N; now right).
  apply dict_get_set_other. intros [= ->]. apply N. now left.
Qed.

Lemma zip_dict_at (k : string) (dflt : pyval) (ks : list string) :
  forall (d : dict) (vs : list string) (i : nat),
    List.NoDup ks -> ks !! i = Some k ->
    dict_get (zip_dict d ks vs) (Some k) dflt
    = match vs !! i with
      | Some v => PStr v
      | None => dict_get d (Some k) dflt
      end.
Proof.
  induction ks as [|k0 ks IH]; intros d vs i ND L; [discriminate|].
  inversion ND as [|? ? Nin ND']; subst.
  destruct vs as [|v0 vs]; [reflexivity|]. cbn [zip_dict].
  destruct i as [|i]; cbn in L |- *.
  - injection L as ->. rewrite zip_dict_other by exact Nin.
    apply dict_get_set_same.
  - rewrite (IH _ vs i ND' L). destruct (vs !! i); [reflexivity|].
    apply dict_get_set_other. intros [= ->]. apply Nin.
    apply list_elem_of_In, list_elem_of_lookup. eauto.
Qed.

Lemma fill_none_other (k : string) (dflt : pyval) (keys : list string) :
  forall d : dict,
    ~ In k keys ->
    dict_get (fold_left (fun d key => dict_set d (Some key) PNone) keys d) (Some k) dflt
    = dict_get d (Some k) dflt.
Proof.
  induction keys as [|k0 keys IH]; intros d N; [reflexivity|].
  cbn [fold_left]. rewrite IH by (intros I; apply N; now right).
  apply dict_get_set_other. intros [= ->]. apply N. now left.
Qed.

Lemma fill_none_at (k : string) (dflt : pyval) (keys : list string) :
  forall d : dict,
    List.NoDup keys -> In k keys ->
    dict_get (fold_left (fun d key => dict_set d (Some key) PNone) keys d) (Some k) dflt
    = PNone.
Proof.
  induction keys as [|k0 keys IH]; intros d ND I; [destruct I|].
  inversion ND as [|? ? Nin ND']; subst. cbn [fold_left].
  destruct I as [->|I].
  - rewrite fill_none_other by exact Nin. apply dict_get_set_same.
  - now apply IH.
Qed.

(** X14: with distinct column names, the value a row dictionary holds under
    a column is the cell of the row at the position of that column, and
    [None] when the row is too short to have one; under a name that is no
    column, [get] returns its default. *)
Theorem column_read_back (header row : list string) (k : string) (dflt : pyval) :
  List.NoDup header ->
  (forall i, header !! i = Some k ->
             dict_get (row_dict header row) (Some k) dflt
             = match row !! i with
               | Some v => PStr v
               | None => PNone
               end)
  /\ (~ In k header -> dict_get (row_dict header row) (Some k) dflt = dflt).
Proof.
  intros ND. unfold row_dict. split.
  - intros i L. pose proof (lookup_lt_Some _ _ _ L) as Hi.
    destruct (Nat.ltb_spec (length header) (length row)) as [lt|ge].
    + rewrite dict_get_set_other by discriminate.
      rewrite (zip_dict_at k dflt header [] row i ND L).
      destruct (row !! i) eqn:R; [reflexivity|].
      apply lookup_ge_None in R. lia.
    + destruct (Nat.ltb_spec (length row) (length header)) as [lt|ge'].
      * destruct (row !! i) as [v|] eqn:R.
        -- rewrite fill_none_other.
           { rewrite (zip_dict_at k dflt header [] row i ND L). now rewrite R. }
           intros I. apply list_elem_of_In, list_elem_of_lookup in I as [j J].
           rewrite lookup_drop in J. pose proof (lookup_lt_Some _ _ _ R) as Ri.
           assert (i = length row + j)%nat; [|lia].
           apply (NoDup_lookup header i (length row + j) k);
             [apply NoDup_ListNoDup; exact ND | exact L | exact J].
        -- apply fill_none_at.
           { apply NoDup_ListNoDup.
             apply (sublist_NoDup _ header); [|apply sublist_drop].
             apply NoDup_ListNoDup; exact ND. }
           apply list_elem_of_In, list_elem_of_lookup.
           apply lookup_ge_None in R. exists (i - length row)%nat.
           rewrite lookup_drop. now replace (length row + (i - length row))%nat with i by lia.
      * rewrite (zip_dict_at k dflt header [] row i ND L).
        destruct (row !! i) eqn:R; [reflexivity|].
        apply lookup_ge_None in R. lia.
  - intros N.
    destruct (Nat.ltb_spec (length header) (length row)) as [lt|ge].
    + rewrite dict_get_set_other by discriminate. now rewrite zip_dict_other.
    + destruct (Nat.ltb_spec (length row) (length header)) as [lt|ge'].
      * rewrite fill_none_other; [now rewrite zip_dict_other|].
        intros I. apply N. apply list_elem_of_In in I. apply list_elem_of_In.
        now apply (subseteq_drop (length row) header).
      * now rewrite zip_dict_other.
Qed.

Lemma column_read_back_witness :
  List.NoDup ["first_name"; "email"; "city"]
  /\ email (lead_of_row (row_dict ["first_name"; "email"; "city"] ["Bob"; "bob@w.io"]))
     = PStr "bob@w.io"
  /\ dict_get (row_dict ["first_name"; "email"; "city"] ["Bob"; "bob@w.io"])
              (Some "city") (PStr EmptyString)
     = PNone.
Proof.
  assert (ND : List.NoDup ["first_name"; "email"; "city"]).
  { repeat constructor; cbn; intuition discriminate. }
  split; [exact ND|]. split.
  - exact (proj1 (column_read_back _ ["Bob"; "bob@w.io"] "email" (PStr EmptyString) ND)
             1%nat eq_refl).
  - exact (proj1 (column_read_back _ ["Bob"; "bob@w.io"] "city" (PStr EmptyString) ND)
             2%nat eq_refl).
Defined.

End StoreLaws.

(** ** Sources whose rows cover the header *)

Section TypedRows.

Lemma str_valued_set (d : dict) (k : pykey) (v : pyval) :
  str_valued d = true ->
  match k with Some _ => is_str v | None => true end = true ->
  str_valued (dict_set d k v) = true.
Proof.
  intros Hd Hv. induction d as [|[k0 v0] d IH]; cbn [dict_set].
  - cbn. now rewrite Hv.
  - cbn [str_valued forallb fst snd] in Hd. apply andb_prop in Hd as [H0 Hd].
    destruct (pykey_eqb k0 k) eqn:E.
    + apply pykey_eqb_eq in E as ->.
      cbn [str_valued forallb fst snd]. rewrite Hv. exact Hd.
    + cbn [str_valued forallb fst snd]. rewrite H0. now apply IH.
Qed.

Lemma str_valued_zip (ks : list string) :
  forall (d : dict) (vs : list string),
    str_valued d = true -> str_valued (zip_dict d ks vs) = true.
Proof.
  induction ks as [|k ks IH]; intros d vs H; [exact H|].
  destruct vs as [|v vs]; [exact H|]. cbn [zip_dict].
  apply IH. now apply str_valued_set.
Qed.

Lemma str_valued_get (d : dict) (k : string) (dflt : pyval) :
  str_valued d = true -> is_str dflt = true ->
  is_str (dict_get d (Some k) dflt) = true.
Proof.
  intros Hd Hdf. induction d as [|[k0 v0] d IH]; [exact Hdf|].
  cbn [str_valued forallb fst snd] in Hd. apply andb_prop in Hd as [H0 Hd].
  cbn [dict_get]. destruct (pykey_eqb k0 (Some k)) eqn:E.
  - apply pykey_eqb_eq in E as ->. exact H0.
  - now apply IH.
Qed.

Lemma covering_row_typed (header row : list string) :
  (length header <= length row)%nat ->
  lead_typed (lead_of_row (row_dict header row)) = true.
Proof.
  intros H.
  assert (S : str_valued (row_dict header row) = true).
  { unfold row_dict.
    destruct (Nat.ltb_spec (length header) (length row)) as [lt|ge].
    - apply str_valued_set; [now apply str_valued_zip | reflexivity].
    - destruct (Nat.ltb_spec (length row) (length header)) as [lt|ge']; [lia|].
      now apply str_valued_zip. }
  unfold lead_typed, lead_of_row. cbn [first_name company_name email].
  now rewrite !str_valued_get.
Qed.

Lemma forallb_take_typed (n : nat) (l : list Lead) :
  forallb lead_typed l = true -> forallb lead_typed (take n l) = true.
Proof.
  revert n. induction l as [|x l IH]; intros [|n] H; try reflexivity.
  cbn [forallb] in H. apply andb_prop in H as [Hx H].
  cbn [take forallb]. now rewrite Hx, IH.
Qed.

Lemma validate_typed (c : Campaign) :
  forallb lead_typed (leads c) = true -> validate c = Ok (validate_spec c).
Proof.
  intros H. rewrite validate_spec_unfold.
  rewrite check_sequence_spec by now apply forallb_take_typed.
  unfold validate_spec. now rewrite <- !app_assoc.
Qed.

(** X15: when every data row of a source is blank or has a cell for every
    column of the header, every lead [_load_leads] adds has strings in its
    three typed fields, and [validate] on the loaded campaign returns a list
    instead of raising. *)
Theorem covering_rows_load_typed (files : csv_files) (c : Campaign) (path : string)
    (header : list string) (rows : list (list string)) :
  files !! path = Some (Rows (header :: rows)) ->
  Forall (covers header) rows ->
  forallb lead_typed (leads c) = true ->
  exists c',
    _load_leads files c path = Ok c'
    /\ forallb lead_typed (leads c') = true
    /\ validate c' = Ok (validate_spec c').
Proof.
  intros L HC HT. unfold _load_leads. rewrite L, load_rows.
  eexists. split; [reflexivity|].
  assert (T : forallb lead_typed
                (leads c ++ map lead_of_row (DictReader (header :: rows))) = true).
  { rewrite forallb_app, HT. cbn [andb DictReader].
    apply forallb_forall. intros lead I.
    apply in_map_iff in I as (d & <- & I).
    apply in_map_iff in I as (row & <- & I).
    apply list_elem_of_In, list_elem_of_filter in I as [NB I].
    rewrite List.Forall_forall in HC. apply list_elem_of_In in I.
    destruct (HC row I) as [->|Hlen]; [now destruct NB|].
    now apply covering_row_typed. }
  split; [exact T|]. now apply validate_typed.
Qed.

Lemma covering_rows_load_typed_witness :
  exists c',
    _load_leads {[ "leads.csv" := Rows [["email"; "first_name"]; ["bob@w.io"; "Bob"; "x"];
                                        []; ["amy@w.io"; "Amy"]] ]}
                Samples.unready "leads.csv" = Ok c'
    /\ forallb lead_typed (leads c') = true
    /\ validate c' = Ok (validate_spec c').
Proof.
  apply (covering_rows_load_typed _ Samples.unready "leads.csv" ["email"; "first_name"]
           [["bob@w.io"; "Bob"; "x"]; []; ["amy@w.io"; "Amy"]]).
  - apply lookup_singleton_eq.
  - constructor; [right; cbn; lia|]. constructor; [left; reflexivity|].
    constructor; [right; cbn; lia|]. constructor.
  - reflexivity.
Defined.

End TypedRows.

(** ** More on the warmup scheduler *)

Section WarmupLaws.

Import WarmupAccount Calendar WarmupLifecycle.

Ltac on_day d :=
  repeat match goal with
         | |- context [(d >=? ?k)%Z] =>
             rewrite (Z.geb_leb d k); destruct (Z.leb_spec k d)
         end.

(** X16: the schedule is a step function of the day: a later day never has
    a lower daily limit nor a higher expected reply rate, and the limit stays
    between 5 and 40 on every integer day, zero and negative days
    included. *)
Theorem schedule_monotone (d1 d2 : Z) :
  (d1 <= d2)%Z ->
  exists s1 s2,
    get_schedule_for_day d1 = Ok s1 /\ get_schedule_for_day d2 = Ok s2
    /\ (daily_limit s1 <= daily_limit s2)%Z
    /\ (reply_rate s2 <= reply_rate s1)%Q
    /\ (5 <= daily_limit s1)%Z /\ (daily_limit s2 <= 40)%Z.
Proof.
  intros H. unfold get_schedule_for_day. rewrite rev_default_schedule.
  cbn [find day]. on_day d1; on_day d2; try lia;
    (do 2 eexists; split; [reflexivity|]; split; [reflexivity|];
     cbn [daily_limit reply_rate]; repeat split; try lia;
     unfold Qle; cbn; lia).
Qed.

Lemma schedule_monotone_witness :
  (-3 <= 9)%Z
  /\ exists s1 s2,
    get_schedule_for_day (-3) = Ok s1 /\ get_schedule_for_day 9 = Ok s2
    /\ (daily_limit s1 <= daily_limit s2)%Z
    /\ (reply_rate s2 <= reply_rate s1)%Q
    /\ (5 <= daily_limit s1)%Z /\ (daily_limit s2 <= 40)%Z.
Proof.
  split; [lia|]. apply (schedule_monotone (-3) 9). lia.
Defined.

(** X17: two updates in a row add up: the totals grow by both increments,
    the record on file carries the metrics of the second update and is
    otherwise what it was, and every other record is untouched. *)
Theorem update_metrics_twice (files : warmup_files) (address : string)
    (config : WarmupConfig) (s1 r1 i1 p1 s2 r2 i2 p2 : Z) :
  files !! config_file address = Some config ->
  exists f1 m1 f2 m2,
    update_metrics files address s1 r1 i1 p1 = Ok (f1, m1)
    /\ update_metrics f1 address s2 r2 i2 p2 = Ok (f2, m2)
    /\ total_sent m2 = (total_sent (metrics config) + s1 + s2)%Z
    /\ total_received m2 = (total_received (metrics config) + r1 + r2)%Z
    /\ (~ (i2 + p2 > 0)%Z -> inbox_rate m2 = inbox_rate m1 /\ spam_rate m2 = spam_rate m1)
    /\ f2 !! config_file address = Some (set_metrics config m2)
    /\ (forall key, key <> config_file address -> f2 !! key = files !! key).
Proof.
  intros H.
  destruct (i1 + p1 >? 0)%Z eqn:G1; destruct (i2 + p2 >? 0)%Z eqn:G2;
    (do 2 eexists; eexists; eexists;
     split; [unfold update_metrics; rewrite H, G1; reflexivity|];
     split; [unfold update_metrics; rewrite lookup_insert_eq, G2; reflexivity|];
     split; [reflexivity|]; split; [reflexivity|];
     split; [intros N; try (apply Z.gtb_lt in G2; lia); now split|];
     split; [now rewrite lookup_insert_eq|];
     intros key ne; now rewrite !lookup_insert_ne by congruence).
Qed.

Lemma update_metrics_twice_witness :
  exists f1 m1 f2 m2,
    update_metrics {[ config_file "john@acmeleads.com" := Samples.warm ]}
                   "john@acmeleads.com" 10 8 3 1 = Ok (f1, m1)
    /\ update_metrics f1 "john@acmeleads.com" 7 2 0 0 = Ok (f2, m2)
    /\ total_sent m2 = 29%Z /\ total_received m2 = 19%Z
    /\ (inbox_rate m2 == 0.75)%Q.
Proof.
  destruct (update_metrics_twice {[ config_file "john@acmeleads.com" := Samples.warm ]}
              "john@acmeleads.com" Samples.warm 10 8 3 1 7 2 0 0)
    as (f1 & m1 & f2 & m2 & E1 & E2 & S & R & K & _); [apply lookup_singleton_eq|].
  exists f1, m1, f2, m2. split; [exact E1|]. split; [exact E2|].
  split; [exact S|]. split; [exact R|].
  destruct K as [K _]; [lia|]. rewrite K.
  unfold update_metrics in E1. rewrite lookup_singleton_eq in E1.
  injection E1 as _ <-. reflexivity.
Defined.

Lemma replace_char_append (a : ascii) (new s1 s2 : string) :
  replace_from (String a EmptyString) new 0 (s1 +:+ s2)
  = replace_from (String a EmptyString) new 0 s1
    +:+ replace_from (String a EmptyString) new 0 s2.
Proof.
  induction s1 as [|c s1 IH]; [reflexivity|].
  rewrite append_cons. cbn [replace_from String.length Nat.sub].
  destruct (ascii_dec a c) as [->|ne].
  - rewrite !prefix_head_eq.
    replace (String.prefix EmptyString (s1 +:+ s2)) with true by now destruct (s1 +:+ s2).
    replace (String.prefix EmptyString s1) with true by now destruct s1.
    now rewrite IH, append_assoc.
  - rewrite !prefix_head_ne by exact ne. now rewrite IH.
Qed.

(** X18: the file name of a warmup record does not tell [@] from [_at_]:
    the addresses [x@y] and [x_at_y] name the same record, so the metrics
    reported for one are updated through the other. *)
Theorem at_sign_collision (x y : string) (files : warmup_files)
    (sent received inbox spam : Z) :
  config_file (x +:+ "@" +:+ y) = config_file (x +:+ "_at_" +:+ y)
  /\ update_metrics files (x +:+ "@" +:+ y) sent received inbox spam
     = update_metrics files (x +:+ "_at_" +:+ y) sent received inbox spam.
Proof.
  assert (E : config_file (x +:+ "@" +:+ y) = config_file (x +:+ "_at_" +:+ y)).
  { unfold config_file. f_equal. rewrite !replace_nonempty.
    rewrite !replace_char_append. reflexivity. }
  split; [exact E|]. unfold update_metrics. now rewrite E.
Qed.

(** X19: [stop_warmup] on a missing record writes nothing and answers
    not-found; on an existing one it sets the status to [stopped] and the
    stop time to its clock reading and keeps everything else, metrics
    included; stopping again changes the stop time only. *)
Theorem stop_warmup_keeps_metrics (now now' : datetime) (files : warmup_files)
    (address : string) :
  match files !! config_file address with
  | None => stop_warmup now files address = (files, StopNotFound address)
  | Some config =>
      let stopped t :=
        mkWarmupConfig (email config) "stopped" (pool config) (cfg_daily_limit config)
                       (start_date config) (end_date config) (current_day config)
                       (schedule config) (metrics config) (Some t) in
      stop_warmup now files address
      = (<[config_file address := stopped now]> files, Stopped address)
      /\ stop_warmup now' (fst (stop_warmup now files address)) address
         = (<[config_file address := stopped now']> files, Stopped address)
  end.
Proof.
  destruct (files !! config_file address) as [config|] eqn:L.
  - cbn zeta. unfold stop_warmup at 1 3. rewrite L.
    split; [reflexivity|]. cbn [fst]. unfold stop_warmup.
    rewrite lookup_insert_eq. cbn. now rewrite insert_insert_eq.
  - unfold stop_warmup. now rewrite L.
Qed.

(** X20: [update_metrics] does not look at the status: on a stopped record
    it still adds to the totals, and the record stays stopped. *)
Theorem update_after_stop (now : datetime) (files : warmup_files) (address : string)
    (config : WarmupConfig) (sent received inbox spam : Z) :
  files !! config_file address = Some config ->
  exists files' m config',
    update_metrics (fst (stop_warmup now files address)) address sent received inbox spam
    = Ok (files', m)
    /\ total_sent m = (total_sent (metrics config) + sent)%Z
    /\ total_received m = (total_received (metrics config) + received)%Z
    /\ files' !! config_file address = Some config'
    /\ status config' = "stopped" /\ stopped_at config' = Some now
    /\ metrics config' = m.
Proof.
  intros L. unfold stop_warmup. rewrite L. cbn [fst].
  unfold update_metrics. rewrite lookup_insert_eq.
  do 3 eexists. split; [reflexivity|].
  split; [destruct (inbox + spam >? 0)%Z; reflexivity|].
  split; [destruct (inbox + spam >? 0)%Z; reflexivity|].
  split; [apply lookup_insert_eq|]. now repeat split.
Qed.

Lemma update_after_stop_witness :
  exists files' m config',
    update_metrics
      (fst (stop_warmup Samples.t2 {[ config_file "john@acmeleads.com" := Samples.warm ]}
                        "john@acmeleads.com"))
      "john@acmeleads.com" 5 4 0 0
    = Ok (files', m)
    /\ total_sent m = (12 + 5)%Z
    /\ total_received m = (9 + 4)%Z
    /\ files' !! config_file "john@acmeleads.com" = Some config'
    /\ status config' = "stopped" /\ stopped_at config' = Some Samples.t2
    /\ metrics config' = m.
Proof.
  apply (update_after_stop Samples.t2 {[ config_file "john@acmeleads.com" := Samples.warm ]}
           "john@acmeleads.com" Samples.warm 5 4 0 0).
  apply lookup_singleton_eq.
Defined.

End WarmupLaws.

(** ** Starting a warmup and asking for its status *)

Section WarmupStartLaws.

Import WarmupAccount Calendar WarmupLifecycle.

Lemma days_between_same (t : datetime) : days_between t t = 0%Z.
Proof.
  unfold days_between. rewrite !Z.sub_diag. reflexivity.
Qed.

(** X21: whatever was on file for the address, whatever limit and pool are
    asked, a [start_warmup] that returns leaves a record that [check_status],
    asked at the same clock reading, reports as active, on day 1, with limit
    5, expected reply rate 1.0 and all metrics at zero. *)
Theorem start_then_status (now_reg now : datetime) (files : warmup_files)
    (address pool : string) (limit duration : Z) (end_date : datetime) :
  plus_days now duration = Some end_date ->
  exists files' config,
    start_warmup now_reg now files address pool limit duration = Done files' config
    /\ files' !! config_file address = Some config
    /\ check_status now files' address
       = Ok (Report address "active" 1 5 1.0 (mkMetrics 0 0 0.0 0.0) end_date).
Proof.
  intros P. unfold start_warmup. rewrite P.
  do 2 eexists. split; [reflexivity|]. split; [apply lookup_insert_eq|].
  unfold check_status. rewrite lookup_insert_eq.
  cbn [start_date status metrics WarmupAccount.end_date].
  rewrite days_between_same. reflexivity.
Qed.

Lemma start_then_status_witness :
  plus_days Samples.t0 14 = Some (mkDatetime 2026 1 19 9 0 0 0)
  /\ exists files' config,
    start_warmup Samples.t0 Samples.t0
                 {[ config_file "john@acmeleads.com" := Samples.warm ]}
                 "john@acmeleads.com" "general" 400 14 = Done files' config
    /\ files' !! config_file "john@acmeleads.com" = Some config
    /\ check_status Samples.t0 files' "john@acmeleads.com"
       = Ok (Report "john@acmeleads.com" "active" 1 5 1.0 (mkMetrics 0 0 0.0 0.0)
                    (mkDatetime 2026 1 19 9 0 0 0)).
Proof.
  split; [reflexivity|].
  apply (start_then_status Samples.t0 Samples.t0 _ "john@acmeleads.com" "general" 400 14).
  reflexivity.
Defined.

(** X22: [check_status] reads the start date, status, metrics and end date
    of the record and nothing else: the schedule stored in the record and
    the daily limit given to [start_warmup] never change its report. *)
Theorem check_status_ignores_stored_schedule (now : datetime)
    (files1 files2 : warmup_files) (address : string) (c1 c2 : WarmupConfig) :
  files1 !! config_file address = Some c1 ->
  files2 !! config_file address = Some c2 ->
  start_date c1 = start_date c2 -> status c1 = status c2 ->
  metrics c1 = metrics c2 -> end_date c1 = end_date c2 ->
  check_status now files1 address = check_status now files2 address.
Proof.
  intros L1 L2 Es Et Em Ee. unfold check_status.
  now rewrite L1, L2, Es, Et, Em, Ee.
Qed.

Lemma check_status_ignores_stored_schedule_witness :
  check_status Samples.t1 {[ config_file "john@acmeleads.com" := Samples.warm ]}
               "john@acmeleads.com"
  = check_status Samples.t1
      {[ config_file "john@acmeleads.com" :=
           mkWarmupConfig "john@acmeleads.com" "active" "premium" 5 Samples.t0 Samples.t2 9
                          [] (mkMetrics 12 9 0.9 0.1) None ]}
      "john@acmeleads.com".
Proof.
  apply (check_status_ignores_stored_schedule Samples.t1 _ _ "john@acmeleads.com"
           Samples.warm
           (mkWarmupConfig "john@acmeleads.com" "active" "premium" 5 Samples.t0 Samples.t2 9
                           [] (mkMetrics 12 9 0.9 0.1) None));
    try reflexivity; apply lookup_singleton_eq.
Defined.

Lemma take_all {A : Type} (n : nat) (l : list A) :
  (length l <= n)%nat -> take n l = l.
Proof. apply take_ge. Qed.

(** X23: the schedule a record stores is a prefix of the default table:
    its first [duration_days] entries when the duration is not negative,
    the whole table from ten days on (so a 14-day warmup also stores the
    entries of days 14 and 21), and the table without its last
    [-duration_days] entries when the duration is negative. *)
Theorem stored_schedule_is_prefix (now_reg now : datetime) (files : warmup_files)
    (address pool : string) (limit duration : Z) (end_date : datetime) :
  plus_days now duration = Some end_date ->
  exists files' config,
    start_warmup now_reg now files address pool limit duration = Done files' config
    /\ schedule config
       = take (Z.to_nat (if (duration <? 0)%Z then 10 + duration else duration))
              DEFAULT_SCHEDULE
    /\ ((10 <= duration)%Z -> schedule config = DEFAULT_SCHEDULE)
    /\ ((duration <= -10)%Z -> schedule config = []).
Proof.
  intros P. unfold start_warmup. rewrite P.
  do 2 eexists. split; [reflexivity|]. cbn [schedule]. unfold slice_to.
  change (Z.of_nat (length DEFAULT_SCHEDULE)) with 10%Z.
  split; [now destruct (duration <? 0)%Z|]. split.
  - intros H. destruct (Z.ltb_spec duration 0) as [neg|_]; [lia|].
    apply take_all. change (length DEFAULT_SCHEDULE) with 10%nat. lia.
  - intros H. destruct (Z.ltb_spec duration 0) as [_|pos]; [|lia].
    replace (Z.to_nat (10 + duration)) with 0%nat by lia. reflexivity.
Qed.

Lemma stored_schedule_is_prefix_witness :
  plus_days Samples.t0 (-3) = Some (mkDatetime 2026 1 2 9 0 0 0)
  /\ exists files' config,
    start_warmup Samples.t0 Samples.t0 ∅ "john@acmeleads.com" "general" 40 (-3)
    = Done files' config
    /\ length (schedule config) = 7%nat.
Proof.
  split; [reflexivity|].
  destruct (stored_schedule_is_prefix Samples.t0 Samples.t0 ∅ "john@acmeleads.com"
              "general" 40 (-3) (mkDatetime 2026 1 2 9 0 0 0) eq_refl)
    as (files' & config & E & S & _).
  exists files', config. split; [exact E|]. rewrite S. reflexivity.
Defined.

End WarmupStartLaws.

(** ** Domains, DNS records and their checks *)

Section ProvisioningLaws.

Import PurchaseDomain SetupDns Deliverability CreateMailbox.

Lemma lstrip_no_lead (c : ascii) (s : string) :
  String.prefix (String c EmptyString) (lstrip c s) = false.
Proof.
  induction s as [|a s IH]; [reflexivity|].
  cbn [lstrip]. destruct (Ascii.eqb_spec a c) as [->|ne]; [exact IH|].
  apply prefix_head_ne. congruence.
Qed.

(** X24: leading dots of a TLD do not count: every variant is the base, one
    dot, and the TLD without its leading dots, so a list of TLDs written
    with a dot gives the variants of the list written without. *)
Theorem variants_ignore_leading_dots (base : string) (tlds : list string) :
  generate_domain_variants base (map (fun tld => "." +:+ tld) tlds)
  = generate_domain_variants base tlds
  /\ Forall (fun v => exists tld, v = base +:+ "." +:+ tld
                                  /\ String.prefix "." tld = false)
            (generate_domain_variants base tlds).
Proof.
  unfold generate_domain_variants. split.
  - rewrite map_map. apply map_ext. intros tld.
    change ("." +:+ tld) with (String "." tld). cbn [lstrip].
    now rewrite Ascii.eqb_refl.
  - apply Forall_map, List.Forall_forall. intros tld _.
    exists (lstrip "." tld). split; [reflexivity | apply lstrip_no_lead].
Qed.

Lemma collect_all {Config : Type} (config : Config) (quantity : Z) (domains : list string) :
  forall available : list availability,
    collect_available config quantity domains available
    = available
      ++ map (fun d => mkAvailability d true 12.99)
             (take (Z.to_nat (Z.max (quantity - Z.of_nat (length available)) 1)) domains).
Proof.
  induction domains as [|d domains IH]; intros available.
  - cbn. rewrite take_nil. cbn. now rewrite app_nil_r.
  - cbn [collect_available check_availability av_available].
    rewrite length_app. cbn [length].
    destruct (Z.geb_spec (Z.of_nat (length available + 1)) quantity) as [ge|lt].
    + replace (Z.to_nat (Z.max (quantity - Z.of_nat (length available)) 1)) with 1%nat by lia.
      reflexivity.
    + rewrite IH, length_app. cbn [length].
      replace (Z.to_nat (Z.max (quantity - Z.of_nat (length available)) 1))
        with (S (Z.to_nat (Z.max (quantity - Z.of_nat (length available + 1)) 1))) by lia.
      cbn [take map]. now rewrite <- app_assoc.
Qed.

Lemma take_of_map {A B : Type} (f : A -> B) (n : nat) (l : list A) :
  take n (map f l) = map f (take n l).
Proof.
  revert n. induction l as [|x l IH]; intros [|n]; try reflexivity.
  cbn [map take]. now rewrite IH.
Qed.

Lemma purchased_domains {Config : Type} (config : Config) (l : list availability) :
  forall clock : nat -> datetime,
    map pu_domain (imap (fun i a => purchase_domain (clock i) (av_domain a) config) l)
    = map av_domain l.
Proof.
  induction l as [|a l IH]; intros clock; [reflexivity|].
  rewrite imap_cons. cbn [map]. f_equal. apply (IH (clock ∘ S)).
Qed.

(** X25: with credentials on file, a real run buys the first [quantity]
    variants (none when [quantity] is zero or negative) and files exactly
    those purchases, while a dry run lists the first [max quantity 1]
    variants: the two agree from [quantity = 1] on, and for a smaller
    quantity the dry run announces one domain that a real run would not
    buy. *)
Theorem purchase_counts {Config : Type} (config : Config) (clock : nat -> datetime)
    (now_file : datetime) (files : purchase_files) (base : string)
    (tlds : list string) (quantity : Z) :
  let variants := generate_domain_variants base tlds in
  (exists available,
      purchase_domains (Some config) clock now_file files base (Some tlds) quantity true
      = Ok (DryRun available)
      /\ map av_domain available = take (Z.to_nat (Z.max quantity 1)) variants)
  /\ (exists results,
        purchase_domains (Some config) clock now_file files base (Some tlds) quantity false
        = Ok (Bought (<["purchase_" +:+ strftime_id now_file +:+ ".json" := results]> files)
                     results)
        /\ map pu_domain results = take (Z.to_nat quantity) variants).
Proof.
  intros variants. unfold purchase_domains. fold variants.
  rewrite collect_all. cbn [app length]. rewrite Z.sub_0_r.
  assert (D : forall l : list string,
             map av_domain (map (fun d => mkAvailability d true 12.99) l) = l).
  { intros l. rewrite map_map. cbn. apply map_id. }
  split.
  - eexists. split; [reflexivity|]. apply D.
  - eexists. split; [reflexivity|].
    rewrite purchased_domains. unfold WarmupLifecycle.slice_to.
    rewrite length_map, length_take.
    destruct (Z.ltb_spec quantity 0) as [neg|pos].
    + replace (Z.to_nat (Z.max quantity 1)) with 1%nat by lia.
      replace (Z.to_nat quantity) with 0%nat by lia.
      replace (Z.to_nat (Z.of_nat (1 `min` length variants) + quantity)) with 0%nat by lia.
      reflexivity.
    + rewrite take_of_map, D, take_take. f_equal. lia.
Qed.

Lemma contains_tail (c : ascii) (sub s : string) :
  contains (String c sub) s = true -> contains sub s = true.
Proof.
  induction s as [|a s IH]; intros H.
  - discriminate.
  - cbn [contains] in H. apply orb_prop in H as [H|H].
    + destruct (ascii_dec c a) as [->|ne].
      * rewrite prefix_head_eq in H. cbn [contains].
        rewrite (contains_prefix sub s H). apply orb_true_r.
      * now rewrite prefix_head_ne in H.
    + cbn [contains]. rewrite (IH H). apply orb_true_r.
Qed.

(** X26: the SPF record [configure_spf] publishes, for any provider name,
    is one [check_spf] holds valid: an answer of [dig] that contains it gets
    the score 1.0. *)
Theorem published_spf_is_valid {Config : Type} (config : Config)
    (domain zone_id provider before after : string) :
  let record := configure_spf domain zone_id provider config in
  let answer := before +:+ dr_content record +:+ after in
  check_spf (Stdout answer)
  = mkSpfResult true true (Some (strip answer)) None 1.0.
Proof.
  intros record answer. unfold check_spf.
  assert (A : contains "v=spf1" answer = true /\ contains "~all" answer = true).
  { unfold answer, record, configure_spf, create_dns_record. cbn [dr_content].
    split; apply contains_append_r, contains_append_l; unfold spf_content;
      destruct (String.eqb provider "google"), (String.eqb provider "microsoft"),
        (String.eqb provider "sendgrid"); reflexivity. }
  destruct A as [-> ->]. reflexivity.
Qed.

(** X27: [check_dmarc] looks for [p=reject] anywhere in the answer, so a
    record whose subdomain policy is [sp=reject] is reported with policy
    [reject] and score 1.0 whatever its own policy says. *)
Theorem subdomain_policy_read_as_policy (stdout : string) :
  contains "v=DMARC1" (strip stdout) = true ->
  contains "sp=reject" (strip stdout) = true ->
  dmarc_policy (check_dmarc (Stdout stdout)) = Some "reject"
  /\ dmarc_score (check_dmarc (Stdout stdout)) = 1.0%Q.
Proof.
  intros V S. apply contains_tail in S.
  unfold check_dmarc. cbn [dmarc_policy dmarc_score]. now rewrite V, S.
Qed.

Lemma subdomain_policy_read_as_policy_witness :
  dmarc_policy (check_dmarc (Stdout "v=DMARC1; p=none; sp=reject; rua=mailto:d@x.io"))
  = Some "reject"
  /\ dmarc_score (check_dmarc (Stdout "v=DMARC1; p=none; sp=reject; rua=mailto:d@x.io"))
     = 1.0%Q.
Proof.
  apply (subdomain_policy_read_as_policy
           "v=DMARC1; p=none; sp=reject; rua=mailto:d@x.io"); reflexivity.
Defined.

(** X28: with credentials on file, [configure_dns] returns one SPF record,
    the MX records of the provider, one DKIM record and, when asked, one
    DMARC record, all marked as created; for a provider other than [google]
    and [microsoft] it creates no MX record at all. *)
Theorem dns_records_created {Config : Type} (config : Config)
    (domain provider policy selector : string) (enable_dmarc : bool) :
  exists records,
    configure_dns (Some config) domain provider enable_dmarc policy selector
    = Ok (mkDnsResults domain provider records)
    /\ length records
       = (2 + length (mx_servers domain provider) + (if enable_dmarc then 1 else 0))%nat
    /\ Forall (fun r => dr_status r = "success") records
    /\ (provider <> "google" -> provider <> "microsoft" ->
        Forall (fun r => dr_type r = "TXT") records).
Proof.
  unfold configure_dns. eexists. split; [reflexivity|].
  cbn [app]. split; [|split].
  - destruct enable_dmarc; rewrite ?length_app; cbn [length];
      unfold configure_mx; rewrite ?length_app, length_map; cbn [length]; lia.
  - assert (M : Forall (fun r => dr_status r = "success")
                  (configure_mx domain (get_zone_id domain config) provider config)).
    { unfold configure_mx. apply Forall_map, List.Forall_forall. now intros [pr sv] _. }
    destruct enable_dmarc; repeat (apply Forall_cons; split; [reflexivity|]);
      repeat (apply Forall_app; split); try exact M; repeat constructor.
  - intros ng nm. apply String.eqb_neq in ng, nm.
    unfold configure_mx, mx_servers. rewrite ng, nm. cbn [map app].
    destruct enable_dmarc; repeat constructor.
Qed.

Lemma dns_records_created_witness :
  exists records,
    configure_dns (Some tt) "acmeleads.com" "sendgrid" true "none" "google"
    = Ok (mkDnsResults "acmeleads.com" "sendgrid" records)
    /\ length records = 3%nat
    /\ Forall (fun r => dr_type r = "TXT") records.
Proof.
  destruct (dns_records_created tt "acmeleads.com" "sendgrid" "none" "google" true)
    as (records & E & L & _ & T).
  exists records. split; [exact E|]. split; [exact L|].
  apply T; discriminate.
Defined.

Lemma lower_char_idem (c : ascii) : lower_char (lower_char c) = lower_char c.
Proof. destruct c as [[] [] [] [] [] [] [] []]; reflexivity. Qed.

Lemma lower_idem (s : string) : lower (lower s) = lower s.
Proof.
  induction s as [|c s IH]; [reflexivity|].
  cbn [lower]. now rewrite lower_char_idem, IH.
Qed.

Lemma lower_append (a b : string) : lower (a +:+ b) = lower a +:+ lower b.
Proof.
  induction a as [|c a IH]; [reflexivity|].
  rewrite append_cons. cbn [lower]. now rewrite IH, append_cons.
Qed.

(** X29: [create_email_address] raises [IndexError] exactly when the first
    or the last name is empty, whatever the pattern, even a pattern that uses
    no initial; otherwise it returns a local part in lower case followed by
    [@] and the domain, an unknown pattern counting as [first.last]. *)
Theorem email_address_or_index_error (first last domain pattern : string) :
  (first = EmptyString \/ last = EmptyString ->
   create_email_address first last domain pattern = Raise IndexError)
  /\ (first <> EmptyString -> last <> EmptyString ->
      exists local,
        create_email_address first last domain pattern = Ok (local +:+ "@" +:+ domain)
        /\ lower local = local).
Proof.
  unfold create_email_address. split.
  - intros [-> | ->]; [reflexivity|]. now destruct first.
  - intros nf nl. destruct first as [|f first]; [now destruct nf|].
    destruct last as [|l last]; [now destruct nl|].
    cbn [first_char]. rewrite !bind_ok.
    destruct (String.eqb pattern "first.last");
      [|destruct (String.eqb pattern "f.last");
        [|destruct (String.eqb pattern "first");
          [|destruct (String.eqb pattern "firstl")]]].
    all: eexists; split;
      [rewrite <- ?append_assoc; reflexivity
      |rewrite ?lower_append, ?lower_idem; reflexivity].
Qed.

Lemma email_address_or_index_error_witness :
  create_email_address "John" EmptyString "acmeleads.com" "first" = Raise IndexError.
Proof.
  apply (email_address_or_index_error "John" EmptyString "acmeleads.com" "first").
  now right.
Defined.

End ProvisioningLaws.
